(** * Static-linking verifier: a shallow embedding of [verify-static-linking.py]

    The script asks the platform's inspection tool ([ldd], [otool -L],
    [dumpbin /dependents]) for the libraries a binary links against, parses
    the tool's text, classifies every library as system or third party and
    reduces the list to a verdict.

    Modelling choices.
    - Python's [str] is a [string] of 8-bit code points, that is the Latin-1
      range of Unicode; [strip], [split], [splitlines] and [lower] are the
      built-ins restricted to that range.
    - [subprocess.run], [Path.exists] and [Path.is_file] are the fields of a
      [Host]; every function that starts a process also returns the list of
      commands it started.
    - A [try] body is a computation in the exception monad [Exc]; the
      [except] clauses are a function from the exception to the result.
    - [print] appends to a list of printed texts.
    - A [Host] is a machine whose [stat] calls answer and whose standard
      output takes every text.  An [OsHost] is the general machine:
      [Path.exists] and [Path.is_file] may re-raise the [OSError] of the
      [stat] call, and [print] raises [UnicodeEncodeError] on a text the
      standard output cannot encode.  [verify_os] and [main_os] are [verify]
      and [main] on an [OsHost]; where the calls answer they agree with
      [verify] and [main]. *)

From Stdlib Require Import Strings.String Strings.Ascii Lists.List Bool.
From Stdlib Require Import Arith.PeanoNat ZArith Lia.
From Stdlib Require Import Numbers.DecimalString Numbers.DecimalNat.
Import ListNotations.
Local Open Scope list_scope.
Local Open Scope string_scope.
Local Open Scope nat_scope.

(** ** Python's built-in string operations *)

Module PyStr.

Definition code (c : ascii) : nat := nat_of_ascii c.

(** [c.isspace()] for a code point below 256. *)
Definition isspace (c : ascii) : bool :=
  let n := code c in
  ((9 <=? n) && (n <=? 13)) || ((28 <=? n) && (n <=? 32))
  || (n =? 133) || (n =? 160).

(** The line boundaries of [str.splitlines] below 256. *)
Definition is_linebreak (c : ascii) : bool :=
  let n := code c in
  ((10 <=? n) && (n <=? 13)) || ((28 <=? n) && (n <=? 30)) || (n =? 133).

(** Truth value of a string: non-empty. *)
Definition truthy (s : string) : bool :=
  match s with EmptyString => false | String _ _ => true end.

Fixpoint lstrip (s : string) : string :=
  match s with
  | EmptyString => EmptyString
  | String c r => if isspace c then lstrip r else s
  end.

Fixpoint rstrip (s : string) : string :=
  match s with
  | EmptyString => EmptyString
  | String c r =>
      let r' := rstrip r in
      if isspace c && negb (truthy r') then EmptyString else String c r'
  end.

(** [s.strip()] *)
Definition strip (s : string) : string := rstrip (lstrip s).

Fixpoint rev_string (acc : list ascii) : string :=
  match acc with
  | [] => EmptyString
  | c :: r => rev_string r ++ String c EmptyString
  end.

(** [s.splitlines()]: [acc] holds the current line, last character first. *)
Fixpoint splitlines_from (acc : list ascii) (s : string) : list string :=
  match s with
  | EmptyString =>
      match acc with [] => [] | _ :: _ => [rev_string acc] end
  | String c r =>
      if is_linebreak c then
        match r with
        | String d r' =>
            if (code c =? 13) && (code d =? 10)
            then rev_string acc :: splitlines_from [] r'
            else rev_string acc :: splitlines_from [] r
        | EmptyString => rev_string acc :: splitlines_from [] r
        end
      else splitlines_from (c :: acc) r
  end.

Definition splitlines (s : string) : list string := splitlines_from [] s.

(** [s.split()]: the maximal runs of non-whitespace characters. *)
Fixpoint split_from (acc : list ascii) (s : string) : list string :=
  match s with
  | EmptyString =>
      match acc with [] => [] | _ :: _ => [rev_string acc] end
  | String c r =>
      if isspace c then
        match acc with
        | [] => split_from [] r
        | _ :: _ => rev_string acc :: split_from [] r
        end
      else split_from (c :: acc) r
  end.

Definition split (s : string) : list string := split_from [] s.

(** [s.startswith(p)] *)
Fixpoint startswith (s p : string) : bool :=
  match p with
  | EmptyString => true
  | String a p' =>
      match s with
      | EmptyString => false
      | String b s' => Ascii.eqb a b && startswith s' p'
      end
  end.

(** [s.endswith(p)]: some tail of [s] is [p]. *)
Fixpoint endswith (s p : string) : bool :=
  String.eqb s p
  || match s with
     | EmptyString => false
     | String _ r => endswith r p
     end.

(** [p in s] *)
Fixpoint contains (p s : string) : bool :=
  startswith s p
  || match s with
     | EmptyString => false
     | String _ r => contains p r
     end.

(** [s.split(sep)] for a non-empty [sep]: [skip] counts the characters of
    a separator occurrence that are still to be passed over. *)
Fixpoint split_sep_from (sep : string) (skip : nat) (acc : list ascii)
         (s : string) : list string :=
  match s with
  | EmptyString => [rev_string acc]
  | String c r =>
      match skip with
      | S k => split_sep_from sep k acc r
      | O =>
          if startswith s sep
          then rev_string acc :: split_sep_from sep (String.length sep - 1) [] r
          else split_sep_from sep 0 (c :: acc) r
      end
  end.

Definition split_sep (s sep : string) : list string :=
  split_sep_from sep 0 [] s.

(** [c.lower()] for a code point below 256. *)
Definition lower_char (c : ascii) : ascii :=
  let n := code c in
  if ((65 <=? n) && (n <=? 90))
     || ((192 <=? n) && (n <=? 222) && negb (n =? 215))
  then ascii_of_nat (n + 32) else c.

Fixpoint lower (s : string) : string :=
  match s with
  | EmptyString => EmptyString
  | String c r => String (lower_char c) (lower r)
  end.

(** [str(n)] for a non-negative integer. *)
Definition of_nat (n : nat) : string := NilEmpty.string_of_uint (Nat.to_uint n).

(** Every character is whitespace (the empty string included). *)
Fixpoint all_space (s : string) : bool :=
  match s with
  | EmptyString => true
  | String c r => isspace c && all_space r
  end.

(** [c * n] *)
Fixpoint repeat (c : string) (n : nat) : string :=
  match n with O => EmptyString | S k => c ++ repeat c k end.

End PyStr.

(** ** Exceptions and the exception monad *)

Inductive PyException : Type :=
| FileNotFoundError (text : string)
| IndexError (text : string)
| TypeError (text : string)
| OtherException (text : string).   (* TimeoutExpired, PermissionError, ... *)

(** [str(e)] *)
Definition exc_str (e : PyException) : string :=
  match e with
  | FileNotFoundError t | IndexError t | TypeError t | OtherException t => t
  end.

Definition Exc (A : Type) : Type := PyException + A.

Definition ret {A} (a : A) : Exc A := inr a.
Definition raise {A} (e : PyException) : Exc A := inl e.
Definition bind {A B} (m : Exc A) (k : A -> Exc B) : Exc B :=
  match m with inl e => inl e | inr a => k a end.

Notation "x <- m ;; k" := (bind m (fun x => k))
  (at level 61, m at next level, right associativity).

(** [l[i]] *)
Definition getitem {A} (l : list A) (i : nat) : Exc A :=
  match nth_error l i with
  | Some a => ret a
  | None => raise (IndexError "list index out of range")
  end.

(** [for x in l: s = body(s, x)], the loop's variables threaded as [s]. *)
Fixpoint for_each {S A} (body : S -> A -> Exc S) (s : S) (l : list A) : Exc S :=
  match l with
  | [] => ret s
  | x :: l' => s' <- body s x ;; for_each body s' l'
  end.

(** ** Data model *)

Inductive Status : Type := SUCCESS | WARNING | ERROR.

Record Dependency : Type := mkDependency {
  name : string;
  path : option string;
  is_system : bool
}.

Record VerificationResult : Type := mkResult {
  status : Status;
  platform : string;
  binary : string;            (* the path, as [str(binary)] *)
  dependencies : list Dependency;
  message : string;
  details : list string
}.

(** The verifier object built by [__init__]. *)
Record StaticLinkingVerifier : Type := mkVerifier {
  self_binary : string;
  self_strict : bool;
  self_platform : string      (* [platform.system()] *)
}.

(** What [subprocess.run(..., capture_output=True, text=True)] returns. *)
Record CompletedProcess : Type := mkCompleted {
  returncode : Z;
  stdout : string;
  stderr : string
}.

Definition Command : Type := list string.

(** The machine the script runs on. *)
Record Host : Type := mkHost {
  path_exists : string -> bool;
  path_is_file : string -> bool;
  subprocess_run : Command -> Exc CompletedProcess
}.

(** [[d for d in deps if not d.is_system]] *)
Definition non_system (deps : list Dependency) : list Dependency :=
  filter (fun d => negb (is_system d)) deps.

Arguments non_system : simpl never.

(** [Path(p).name] of a POSIX path: the last component that is neither
    empty nor ".", or the empty string. *)
Definition Path_name (p : string) : string :=
  last (filter (fun c => PyStr.truthy c && negb (String.eqb c "."))
               (PyStr.split_sep p "/")) "".

(** [try: body except ...: handler] *)
Definition try_except {A} (body : Exc A) (handler : PyException -> A) : A :=
  match body with
  | inr a => a
  | inl e => handler e
  end.

(** ** [_verify_linux]: [ldd] *)

Definition linux_system_markers : list string :=
  ["/lib/"; "/usr/lib/"; "linux-vdso"; "ld-linux"].

(** One turn of the loop over [output.splitlines()]. *)
Definition linux_line (deps : list Dependency) (line : string)
  : Exc (list Dependency) :=
  let line := PyStr.strip line in
  if PyStr.contains "=>" line then
    let parts := PyStr.split_sep line "=>" in
    p0 <- getitem parts 0 ;;
    let lib_name := PyStr.strip p0 in
    p1 <- getitem parts 1 ;;
    lib_path <- (if 0 <? String.length (PyStr.strip p1)
                 then t <- getitem (PyStr.split (PyStr.strip p1)) 0 ;; ret (Some t)
                 else ret None) ;;
    let is_system :=
      match lib_path with
      | Some p =>
          PyStr.truthy p
          && existsb (fun m => PyStr.contains m p) linux_system_markers
      | None => false
      end in
    ret (deps ++ [mkDependency lib_name lib_path is_system])%list
  else ret deps.

(** [deps = []; for line in output.splitlines(): ...] *)
Definition linux_parse (output : string) : Exc (list Dependency) :=
  for_each linux_line [] (PyStr.splitlines output).

Definition linux_body (self : StaticLinkingVerifier) (result : CompletedProcess)
  : Exc VerificationResult :=
  let output := stdout result ++ stderr result in
  if PyStr.contains "not a dynamic executable" output
     || PyStr.contains "not a dynamic" output
  then
    ret (mkResult SUCCESS "Linux" (self_binary self) []
           "Fully static binary (no dynamic dependencies)"
           ["Binary is completely static"; "No shared libraries linked"])
  else
    deps <- linux_parse output ;;
    match deps with
    | [] =>
        ret (mkResult SUCCESS "Linux" (self_binary self) []
               "Fully static binary" ["No dynamic dependencies found"])
    | _ :: _ =>
        let non_system_deps := non_system deps in
        match non_system_deps with
        | [] =>
            let status := if self_strict self then WARNING else SUCCESS in
            ret (mkResult status "Linux" (self_binary self) deps
                   (if negb (self_strict self)
                    then "Mostly static (only system libs)"
                    else "Not fully static")
                   ["System dependencies: " ++ PyStr.of_nat (length deps);
                    "All dependencies are system libraries"])
        | _ :: _ =>
            ret (mkResult ERROR "Linux" (self_binary self) deps
                   ("Dynamic binary with " ++ PyStr.of_nat (length non_system_deps)
                    ++ " non-system dependencies")
                   ["Total dependencies: " ++ PyStr.of_nat (length deps);
                    "Non-system dependencies: "
                    ++ PyStr.of_nat (length non_system_deps)])
        end
    end.

Definition linux_except (self : StaticLinkingVerifier) (e : PyException)
  : VerificationResult :=
  match e with
  | FileNotFoundError _ =>
      mkResult ERROR "Linux" (self_binary self) []
        "ldd command not found" ["Install binutils package"]
  | _ =>
      mkResult ERROR "Linux" (self_binary self) []
        ("Error running ldd: " ++ exc_str e) []
  end.

Definition _verify_linux (self : StaticLinkingVerifier) (host : Host)
  : VerificationResult * list Command :=
  let cmd := ["ldd"; self_binary self] in
  (try_except (result <- subprocess_run host cmd ;; linux_body self result)
              (linux_except self),
   [cmd]).

(** ** [_verify_macos]: [otool -L] *)

(** One turn of the loop over [lines[1:]]. *)
Definition macos_line (deps : list Dependency) (line : string)
  : Exc (list Dependency) :=
  lib_path <- getitem (PyStr.split (PyStr.strip line)) 0 ;;
  let is_system :=
    PyStr.startswith lib_path "/usr/lib/"
    || PyStr.startswith lib_path "/System/Library/" in
  ret (deps ++ [mkDependency (Path_name lib_path) (Some lib_path) is_system])%list.

(** [deps = []; for line in lines[1:]: ...] *)
Definition macos_parse (lines : list string) : Exc (list Dependency) :=
  for_each macos_line [] (tl lines).

(** [needle in d.path] *)
Definition in_path (needle : string) (d : Dependency) : Exc bool :=
  match path d with
  | Some p => ret (PyStr.contains needle p)
  | None => raise (TypeError "argument of type 'NoneType' is not iterable")
  end.

Definition macos_evaluate (self : StaticLinkingVerifier) (deps : list Dependency)
  : VerificationResult :=
  let non_system_deps := non_system deps in
  match non_system_deps with
  | [] =>
      if length deps <=? 3 then
        mkResult SUCCESS "macOS" (self_binary self) deps
          "Good static binary (only system libs)"
          ["System dependencies: " ++ PyStr.of_nat (length deps);
           "All dependencies are system libraries"]
      else
        mkResult WARNING "macOS" (self_binary self) deps
          ("Many system dependencies (" ++ PyStr.of_nat (length deps) ++ ")")
          ["System dependencies: " ++ PyStr.of_nat (length deps);
           "Consider reviewing dependencies"]
  | _ :: _ =>
      mkResult ERROR "macOS" (self_binary self) deps
        ("Dynamic binary with " ++ PyStr.of_nat (length non_system_deps)
         ++ " third-party dependencies")
        ["Total dependencies: " ++ PyStr.of_nat (length deps);
         "Non-system dependencies: " ++ PyStr.of_nat (length non_system_deps)]
  end.

Definition macos_body (self : StaticLinkingVerifier) (result : CompletedProcess)
  : Exc VerificationResult :=
  if negb (returncode result =? 0)%Z then
    ret (mkResult ERROR "macOS" (self_binary self) []
           ("otool failed: " ++ stderr result) [])
  else
    let lines := PyStr.splitlines (PyStr.strip (stdout result)) in
    if length lines <=? 1 then
      ret (mkResult SUCCESS "macOS" (self_binary self) []
             "No dependencies (unusual but valid)" [])
    else
      deps <- macos_parse lines ;;
      only_libsystem <-
        (if length deps =? 1
         then d <- getitem deps 0 ;; in_path "/usr/lib/libSystem.B.dylib" d
         else ret false) ;;
      if only_libsystem then
        ret (mkResult SUCCESS "macOS" (self_binary self) deps
               "Optimal static binary (only libSystem required by macOS)"
               ["Only system library: libSystem.B.dylib";
                "Third-party libraries are statically linked"])
      else ret (macos_evaluate self deps).

Definition macos_except (self : StaticLinkingVerifier) (e : PyException)
  : VerificationResult :=
  match e with
  | FileNotFoundError _ =>
      mkResult ERROR "macOS" (self_binary self) []
        "otool command not found" ["Install Xcode Command Line Tools"]
  | _ =>
      mkResult ERROR "macOS" (self_binary self) []
        ("Error running otool: " ++ exc_str e) []
  end.

Definition _verify_macos (self : StaticLinkingVerifier) (host : Host)
  : VerificationResult * list Command :=
  let cmd := ["otool"; "-L"; self_binary self] in
  (try_except (result <- subprocess_run host cmd ;; macos_body self result)
              (macos_except self),
   [cmd]).

(** ** [_verify_windows]: [dumpbin /dependents] *)

Definition windows_system_dlls : list string :=
  ["kernel32"; "ntdll"; "msvcrt"; "ucrtbase"].

Definition deps_marker : string := "Image has the following dependencies:".

(** The variables of the parsing loop: [deps] and [in_deps_section]. *)
Definition WinState : Type := (list Dependency * bool)%type.

(** One turn of the loop over [result.stdout.splitlines()]. *)
Definition windows_line (st : WinState) (line : string) : Exc WinState :=
  let '(deps, in_deps_section) := st in
  let line := PyStr.strip line in
  if PyStr.contains deps_marker line then
    ret (deps, true)                                   (* continue *)
  else if in_deps_section && PyStr.truthy line
          && negb (PyStr.startswith line "Summary") then
    if PyStr.endswith line ".dll" then
      let is_system :=
        existsb (fun sys_dll => PyStr.contains sys_dll (PyStr.lower line))
                windows_system_dlls in
      ret ((deps ++ [mkDependency line None is_system])%list, in_deps_section)
    else ret (deps, in_deps_section)
  else ret (deps, in_deps_section).

Definition windows_parse (out : string) : Exc (list Dependency) :=
  st <- for_each windows_line ([], false) (PyStr.splitlines out) ;;
  ret (fst st).

Definition windows_evaluate (self : StaticLinkingVerifier) (deps : list Dependency)
  : VerificationResult :=
  let non_system_deps := non_system deps in
  match deps with
  | [] =>
      mkResult SUCCESS "Windows" (self_binary self) []
        "Fully static binary (no DLL dependencies)"
        ["Binary is completely static"]
  | _ :: _ =>
      match non_system_deps with
      | [] =>
          mkResult SUCCESS "Windows" (self_binary self) deps
            "Static binary (only system DLLs)"
            ["System dependencies: " ++ PyStr.of_nat (length deps);
             "All dependencies are Windows system DLLs"]
      | _ :: _ =>
          mkResult ERROR "Windows" (self_binary self) deps
            ("Dynamic binary with " ++ PyStr.of_nat (length non_system_deps)
             ++ " third-party dependencies")
            ["Total dependencies: " ++ PyStr.of_nat (length deps);
             "Non-system dependencies: "
             ++ PyStr.of_nat (length non_system_deps)]
      end
  end.

Definition windows_body (self : StaticLinkingVerifier) (result : CompletedProcess)
  : Exc VerificationResult :=
  if negb (returncode result =? 0)%Z then
    ret (mkResult ERROR "Windows" (self_binary self) []
           "Could not analyze binary (dumpbin not found)"
           ["Install Visual Studio or use Windows SDK"])
  else
    deps <- windows_parse (stdout result) ;;
    ret (windows_evaluate self deps).

Definition windows_except (self : StaticLinkingVerifier) (e : PyException)
  : VerificationResult :=
  match e with
  | FileNotFoundError _ =>
      mkResult ERROR "Windows" (self_binary self) []
        "dumpbin command not found" ["Install Visual Studio or Windows SDK"]
  | _ =>
      mkResult ERROR "Windows" (self_binary self) []
        ("Error running dumpbin: " ++ exc_str e) []
  end.

Definition _verify_windows (self : StaticLinkingVerifier) (host : Host)
  : VerificationResult * list Command :=
  let cmd := ["dumpbin"; "/dependents"; self_binary self] in
  (try_except (result <- subprocess_run host cmd ;; windows_body self result)
              (windows_except self),
   [cmd]).

(** ** [verify] *)

Definition verify (self : StaticLinkingVerifier) (host : Host)
  : VerificationResult * list Command :=
  if negb (path_exists host (self_binary self)) then
    (mkResult ERROR (self_platform self) (self_binary self) []
       ("Binary not found: " ++ self_binary self) [], [])
  else if negb (path_is_file host (self_binary self)) then
    (mkResult ERROR (self_platform self) (self_binary self) []
       ("Not a file: " ++ self_binary self) [], [])
  else if String.eqb (self_platform self) "Linux" then _verify_linux self host
  else if String.eqb (self_platform self) "Darwin" then _verify_macos self host
  else if String.eqb (self_platform self) "Windows" then _verify_windows self host
  else
    (mkResult ERROR (self_platform self) (self_binary self) []
       ("Unsupported platform: " ++ self_platform self) [], []).

(** ** [print_result] *)

Definition nl : string := String (ascii_of_nat 10) EmptyString.

(** [Status.value]; the glyphs lie outside Latin-1 and stand here as the
    bytes written to the terminal. *)
Definition Status_value (s : Status) : string :=
  match s with
  | SUCCESS => "✓"
  | WARNING => "⚠"
  | ERROR => "✗"
  end.

Definition print_dep (verbose : bool) (dep : Dependency) : string :=
  if verbose && match path dep with Some p => PyStr.truthy p | None => false end
  then "    • " ++ name dep ++ " ("
       ++ match path dep with Some p => p | None => "None" end ++ ")"
  else "    • " ++ name dep.

Definition print_bucket (title : string) (verbose : bool) (deps : list Dependency)
  : list string :=
  match deps with
  | [] => []
  | _ :: _ =>
      (nl ++ "  " ++ title ++ " (" ++ PyStr.of_nat (length deps) ++ "):")
      :: map (print_dep verbose) deps
  end.

(** The texts handed to [print], in order, and the returned exit code. *)
Definition print_result (result : VerificationResult) (verbose : bool)
  : list string * Z :=
  let rule := PyStr.repeat "=" 80 in
  let head :=
    [nl ++ rule;
     "Static Linking Verification - " ++ platform result;
     rule ++ nl;
     "Binary: " ++ binary result;
     "Status: " ++ Status_value (status result) ++ " " ++ message result ++ nl] in
  let detail_lines :=
    match details result with
    | [] => []
    | _ :: _ =>
        "Details:"
        :: List.app (map (fun detail => "  • " ++ detail) (details result)) [""]
    end in
  let dep_lines :=
    match dependencies result with
    | [] => []
    | _ :: _ =>
        let system_deps := filter is_system (dependencies result) in
        let non_system_deps := non_system (dependencies result) in
        ("Dependencies (" ++ PyStr.of_nat (length (dependencies result)) ++ "):")
        :: List.app (print_bucket "System libraries" verbose system_deps)
             (print_bucket "Third-party libraries" verbose non_system_deps)
    end in
  let foot := [nl ++ rule ++ nl] in
  let printed := (head ++ detail_lines ++ dep_lines ++ foot)%list in
  let exit_code :=
    match status result with
    | SUCCESS => 0%Z
    | WARNING => 0%Z              (* Warning is still OK *)
    | ERROR => 1%Z
    end in
  (printed, exit_code).

(** ** Sample hosts and tool outputs *)

Definition tab : string := String (ascii_of_nat 9) EmptyString.

(** A host on which every path is a regular file and every command
    completes with exit status 0 and the given standard output. *)
Definition host_printing (out : string) : Host :=
  mkHost (fun _ => true) (fun _ => true) (fun _ => ret (mkCompleted 0 out "")).

(** A host on which no path exists. *)
Definition host_without_files : Host :=
  mkHost (fun _ => false) (fun _ => false)
         (fun _ => raise (FileNotFoundError "No such file or directory")).

Definition ldd_static : string := tab ++ "not a dynamic executable" ++ nl.

Definition ldd_libc_only : string :=
  tab ++ "libc.so.6 => /lib/x86_64-linux-gnu/libc.so.6 (0x00007f12)" ++ nl.

Definition otool_libsystem : string :=
  "build/app:" ++ nl ++ tab
  ++ "/usr/lib/libSystem.B.dylib (compatibility version 1.0.0)" ++ nl.

Definition otool_foreign_libsystem : string :=
  "build/app:" ++ nl ++ tab
  ++ "/opt/sdk/usr/lib/libSystem.B.dylib (compatibility version 1.0.0)" ++ nl.

Definition otool_blank_line : string :=
  "build/app:" ++ nl ++ tab ++ "/usr/lib/libSystem.B.dylib (compatibility version 1.0.0)"
  ++ nl ++ " " ++ nl ++ tab ++ "/usr/lib/libc++.1.dylib (compatibility version 1.0.0)" ++ nl.

Definition dumpbin_kernel32 : string :=
  "Dump of file app.exe" ++ nl ++ nl
  ++ "  Image has the following dependencies:" ++ nl ++ nl
  ++ "    KERNEL32.dll" ++ nl ++ nl
  ++ "  Summary" ++ nl ++ nl ++ "        1000 .data" ++ nl.

Definition dumpbin_dll_after_summary : string :=
  "  Image has the following dependencies:" ++ nl ++ nl
  ++ "    KERNEL32.dll" ++ nl ++ nl
  ++ "  Summary" ++ nl ++ nl ++ "        1000 .data" ++ nl
  ++ "    late.dll" ++ nl.

(** The libSystem listing followed by a line of blanks at the very end. *)
Definition otool_trailing_blank : string := otool_libsystem ++ "   " ++ nl.

Definition dumpbin_no_imports : string :=
  "Dump of file app.exe" ++ nl ++ nl ++ "  Summary" ++ nl ++ nl
  ++ "        1000 .data" ++ nl.

(** ** A closed form of the Windows scan

    The loop of [_verify_windows], read as a filter: the stripped lines
    that follow the first line containing the marker, of which those are
    recorded that pass every test of the loop body. *)

Definition has_marker (line : string) : bool := PyStr.contains deps_marker line.

(** The lines after the first one that contains the marker. *)
Fixpoint after_marker (lines : list string) : list string :=
  match lines with
  | [] => []
  | l :: rest => if has_marker l then rest else after_marker rest
  end.

(** The tests a stripped line passes to be recorded once the marker was seen. *)
Definition recordable (line : string) : bool :=
  negb (has_marker line) && PyStr.truthy line
  && negb (PyStr.startswith line "Summary") && PyStr.endswith line ".dll".

(** The entry recorded for a stripped line. *)
Definition windows_dependency (line : string) : Dependency :=
  mkDependency line None
    (existsb (fun sys_dll => PyStr.contains sys_dll (PyStr.lower line))
             windows_system_dlls).

(** A goal [non_system [] <> [] -> _]. *)
Ltac absurd_empty :=
  let H := fresh in intros H; exfalso; apply H; reflexivity.

(** ** [main] of the verifier: from the parsed arguments on *)

(** The namespace [parser.parse_args()] returns; [args_binary] stands for
    the path [Path(args.binary)]. *)
Record Namespace : Type := mkArgs {
  args_binary : string;
  args_strict : bool;
  args_verbose : bool
}.

(** What a run of a script leaves behind: the texts printed, the commands
    started, and the status handed to [sys.exit]. *)
Record Run : Type := mkRun {
  run_printed : list string;
  run_started : list Command;
  run_exit : Z
}.

(** [system] is what [platform.system()] answers in [__init__]. *)
Definition main (args : Namespace) (system : string) (host : Host) : Run :=
  let binary_path := args_binary args in
  let verifier := mkVerifier binary_path (args_strict args) system in
  let (result, started) := verify verifier host in
  let (printed, exit_code) := print_result result (args_verbose args) in
  mkRun printed started exit_code.

(** ** [build-static.py]: finding the binaries and sweeping them *)











(** A host on which every command completes with the given exit status. *)
Definition host_exiting (rc : Z) (out : string) : Host :=
  mkHost (fun _ => true) (fun _ => true) (fun _ => ret (mkCompleted rc out "")).

Definition ldd_mixed : string :=
  tab ++ "linux-vdso.so.1 (0x00007ffc)" ++ nl
  ++ tab ++ "libfoo.so.1 => /opt/foo/libfoo.so.1 (0x00007f10)" ++ nl
  ++ tab ++ "libc.so.6 => /lib/x86_64-linux-gnu/libc.so.6 (0x00007f12)" ++ nl
  ++ tab ++ "/lib64/ld-linux-x86-64.so.2 (0x00007f14)" ++ nl.

Definition otool_two_libraries : string :=
  "build/app:" ++ nl
  ++ tab ++ "/usr/lib/libc++.1.dylib (compatibility version 1.0.0)" ++ nl
  ++ tab ++ "/usr/lib/libSystem.B.dylib (compatibility version 1.0.0)" ++ nl.



(** ** Closed forms of the Linux and macOS loops *)

(** The entry the macOS loop records for a line: its first token as path. *)
Definition macos_dependency (line : string) : Dependency :=
  let lib_path := hd "" (PyStr.split (PyStr.strip line)) in
  mkDependency (Path_name lib_path) (Some lib_path)
    (PyStr.startswith lib_path "/usr/lib/"
     || PyStr.startswith lib_path "/System/Library/").

(** The entry the Linux loop records for a stripped line that contains "=>". *)
Definition linux_dependency (line : string) : Dependency :=
  let parts := PyStr.split_sep line "=>" in
  let target := PyStr.strip (nth 1 parts "") in
  let lib_path :=
    if 0 <? String.length target then Some (hd "" (PyStr.split target)) else None in
  mkDependency (PyStr.strip (hd "" parts)) lib_path
    match lib_path with
    | Some p =>
        PyStr.truthy p && existsb (fun m => PyStr.contains m p) linux_system_markers
    | None => false
    end.

(** ** The general machine: [stat] calls and prints that can fail *)

Record OsHost : Type := mkOsHost {
  os_exists : string -> Exc bool;     (* [Path.exists()]: an answer, or the re-raised [OSError] *)
  os_is_file : string -> Exc bool;    (* [Path.is_file()], likewise *)
  os_run : Command -> Exc CompletedProcess;
  os_encodes : string -> bool         (* can [sys.stdout] encode this text *)
}.

(** The part of the machine the platform methods use: [subprocess.run]. *)
Definition run_host (m : OsHost) : Host :=
  mkHost (fun _ => true) (fun _ => true) (os_run m).

(** [verify], lines 54-91: the two [stat] calls stand outside every [try],
    so what they raise leaves [verify] as it is. *)
Definition verify_os (self : StaticLinkingVerifier) (m : OsHost)
  : Exc VerificationResult * list Command :=
  match os_exists m (self_binary self) with
  | inl e => (raise e, [])
  | inr false =>
      (ret (mkResult ERROR (self_platform self) (self_binary self) []
              ("Binary not found: " ++ self_binary self) []), [])
  | inr true =>
      match os_is_file m (self_binary self) with
      | inl e => (raise e, [])
      | inr false =>
          (ret (mkResult ERROR (self_platform self) (self_binary self) []
                  ("Not a file: " ++ self_binary self) []), [])
      | inr true =>
          if String.eqb (self_platform self) "Linux" then
            (ret (fst (_verify_linux self (run_host m))),
             snd (_verify_linux self (run_host m)))
          else if String.eqb (self_platform self) "Darwin" then
            (ret (fst (_verify_macos self (run_host m))),
             snd (_verify_macos self (run_host m)))
          else if String.eqb (self_platform self) "Windows" then
            (ret (fst (_verify_windows self (run_host m))),
             snd (_verify_windows self (run_host m)))
          else
            (ret (mkResult ERROR (self_platform self) (self_binary self) []
                    ("Unsupported platform: " ++ self_platform self) []), [])
      end
  end.

(** A run of [print] calls: the texts that reached the output, and whether
    a call raised.  A text the output cannot encode is not written. *)
Fixpoint print_all (encodes : string -> bool) (texts : list string)
  : list string * Exc unit :=
  match texts with
  | [] => ([], ret tt)
  | t :: rest =>
      if encodes t then
        (t :: fst (print_all encodes rest), snd (print_all encodes rest))
      else ([], raise (OtherException "UnicodeEncodeError"))
  end.

(** [print_result] on a standard output that may refuse a text: the exit
    code is returned only when every [print] went through. *)
Definition print_result_os (m : OsHost) (result : VerificationResult) (verbose : bool)
  : list string * Exc Z :=
  (fst (print_all (os_encodes m) (fst (print_result result verbose))),
   _ <- snd (print_all (os_encodes m) (fst (print_result result verbose))) ;;
   ret (snd (print_result result verbose))).

(** [main] on the general machine.  An exception that reaches the top of
    the script ends the process with status 1. *)
Definition main_os (args : Namespace) (system : string) (m : OsHost) : Run :=
  let binary_path := args_binary args in
  let verifier := mkVerifier binary_path (args_strict args) system in
  match fst (verify_os verifier m) with
  | inl _ => mkRun [] (snd (verify_os verifier m)) 1
  | inr result =>
      match snd (print_result_os m result (args_verbose args)) with
      | inl _ =>
          mkRun (fst (print_result_os m result (args_verbose args)))
                (snd (verify_os verifier m)) 1
      | inr exit_code =>
          mkRun (fst (print_result_os m result (args_verbose args)))
                (snd (verify_os verifier m)) exit_code
      end
  end.

(** The longest file name a Linux file system takes. *)
Definition NAME_MAX : nat := 255.

(** A machine that knows the given regular files, answers [stat] as Linux
    does (a path with an over-long component is refused with errno 36),
    runs commands by [run] and prints to a UTF-8 terminal. *)
Definition os_with_files (files : list string) (run : Command -> Exc CompletedProcess)
  : OsHost :=
  let stat := fun p : string =>
    if existsb (fun c => NAME_MAX <? String.length c) (PyStr.split_sep p "/")
    then raise (OtherException "[Errno 36] File name too long")
    else ret (existsb (String.eqb p) files) in
  mkOsHost stat stat run (fun _ => true).

(** The same machine with a terminal that cannot encode the warning sign. *)
Definition os_without_warning_sign (files : list string)
           (run : Command -> Exc CompletedProcess) : OsHost :=
  mkOsHost (os_exists (os_with_files files run)) (os_is_file (os_with_files files run))
           run (fun t => negb (PyStr.contains "⚠" t)).

Definition overlong_name : string := PyStr.repeat "n" 300.

(** [otool] listings with a whitespace-only line at the end and at the start. *)
Definition otool_leading_blank : string := "   " ++ nl ++ otool_libsystem.


(** * Properties *)

(** ** The string operations on sample texts *)

Example strip_sample : PyStr.strip (tab ++ " libc.so.6 " ++ nl) = "libc.so.6".
Proof. reflexivity. Qed.

Example splitlines_sample :
  PyStr.splitlines ("a" ++ String (ascii_of_nat 13) nl ++ "b" ++ nl ++ nl)
  = ["a"; "b"; ""]
  /\ PyStr.splitlines "" = []
  /\ PyStr.splitlines nl = [""].
Proof. repeat split; reflexivity. Qed.

Example split_sample :
  PyStr.split ("  /lib/x.so" ++ tab ++ "(0x00) ") = ["/lib/x.so"; "(0x00)"]
  /\ PyStr.split "   " = [].
Proof. split; reflexivity. Qed.

Example split_sep_sample :
  PyStr.split_sep "a==>>b=>" "=>" = ["a="; ">b"; ""]
  /\ PyStr.split_sep "=>" "=>" = [""; ""].
Proof. split; reflexivity. Qed.

Example lower_sample : PyStr.lower "KERNEL32.dll" = "kernel32.dll".
Proof. reflexivity. Qed.

Example of_nat_sample : PyStr.of_nat 0 = "0" /\ PyStr.of_nat 12 = "12".
Proof. split; reflexivity. Qed.

Example Path_name_sample :
  map Path_name ["/usr/lib/libSystem.B.dylib"; "a/b/"; "/"; "."; ".."; "a/."; "//a"]
  = ["libSystem.B.dylib"; "b"; ""; ""; ".."; "a"; "a"].
Proof. reflexivity. Qed.

(** ** The exception monad and the loop combinator *)

Lemma for_each_app {S A} (body : S -> A -> Exc S) (l1 l2 : list A) (s : S) :
  for_each body s (l1 ++ l2)%list = (s' <- for_each body s l1 ;; for_each body s' l2).
Proof.
  revert s; induction l1 as [|x l1 IH]; intros s; simpl; [reflexivity|].
  destruct (body s x) as [e|s']; simpl; [reflexivity|apply IH].
Qed.

(** ** C3: the exit code *)

(** C3. The exit code returned by [print_result] is determined by the
    status alone: 0 for SUCCESS, 0 for WARNING and 1 for ERROR, whatever the
    other fields of the result and whatever [verbose] is. *)
Theorem print_result_exit_code :
  forall (result : VerificationResult) (verbose : bool),
    snd (print_result result verbose)
    = match status result with SUCCESS => 0 | WARNING => 0 | ERROR => 1 end%Z
    /\ (forall (result' : VerificationResult) (verbose' : bool),
          status result' = status result ->
          snd (print_result result' verbose') = snd (print_result result verbose)).
Proof.
  intros result verbose; split; [reflexivity|].
  intros result' verbose' Hs; unfold print_result; simpl; now rewrite Hs.
Qed.

(** ** C9, C7: the [strict] flag *)

(** Neither [_verify_macos] nor [_verify_windows] reads [self.strict]. *)
Lemma _verify_macos_strict (b p : string) (s1 s2 : bool) (host : Host) :
  _verify_macos (mkVerifier b s1 p) host = _verify_macos (mkVerifier b s2 p) host.
Proof. reflexivity. Qed.

Lemma _verify_windows_strict (b p : string) (s1 s2 : bool) (host : Host) :
  _verify_windows (mkVerifier b s1 p) host = _verify_windows (mkVerifier b s2 p) host.
Proof. reflexivity. Qed.

(** C9. On macOS ([platform.system()] is "Darwin") and on Windows the
    result of [verify], and the commands it starts, are the same with
    [strict = true] as with [strict = false]. *)
Theorem strict_ignored_on_macos_and_windows :
  forall (b p : string) (host : Host),
    p = "Darwin" \/ p = "Windows" ->
    verify (mkVerifier b true p) host = verify (mkVerifier b false p) host.
Proof.
  intros b p host [-> | ->]; unfold verify; simpl;
    destruct (path_exists host b), (path_is_file host b); reflexivity.
Qed.

Lemma strict_ignored_on_macos_and_windows_witness :
  verify (mkVerifier "app.exe" true "Windows") (host_printing dumpbin_kernel32)
  = verify (mkVerifier "app.exe" false "Windows") (host_printing dumpbin_kernel32).
Proof.
  apply (strict_ignored_on_macos_and_windows "app.exe" "Windows"
           (host_printing dumpbin_kernel32)).
  right; reflexivity.
Defined.

(** What [strict] does to [_verify_linux]: nothing, or SUCCESS to WARNING. *)
Lemma _verify_linux_strict (b p : string) (host : Host) :
  let lax := fst (_verify_linux (mkVerifier b false p) host) in
  let strict := fst (_verify_linux (mkVerifier b true p) host) in
  strict = lax \/ (status lax = SUCCESS /\ status strict = WARNING).
Proof.
  unfold _verify_linux, linux_body; simpl.
  destruct (subprocess_run host ["ldd"; b]) as [e|result]; simpl.
  - left; destruct e; reflexivity.
  - destruct (_ || _); simpl; [left; reflexivity|].
    destruct (linux_parse _) as [e|deps]; simpl; [left; destruct e; reflexivity|].
    destruct deps as [|d deps]; [left; reflexivity|].
    destruct (non_system (d :: deps)); simpl; [right; split; reflexivity|left; reflexivity].
Qed.

Lemma verify_strict (b p : string) (host : Host) :
  let lax := fst (verify (mkVerifier b false p) host) in
  let strict := fst (verify (mkVerifier b true p) host) in
  strict = lax \/ (status lax = SUCCESS /\ status strict = WARNING).
Proof.
  unfold verify; simpl.
  destruct (path_exists host b); simpl; [|left; reflexivity].
  destruct (path_is_file host b); simpl; [|left; reflexivity].
  destruct (String.eqb p "Linux"); [apply _verify_linux_strict|].
  destruct (String.eqb p "Darwin"); [left; reflexivity|].
  destruct (String.eqb p "Windows"); left; reflexivity.
Qed.

(** C7. For a fixed binary, platform and host (hence a fixed tool output),
    going from [strict = false] to [strict = true] either leaves the result
    as it is or turns a SUCCESS into a WARNING: it never produces ERROR where
    the lax run did not, and it never changes a result whose status is ERROR
    or WARNING. *)
Theorem strict_only_downgrades_success :
  forall (b p : string) (host : Host),
    let lax := fst (verify (mkVerifier b false p) host) in
    let strict := fst (verify (mkVerifier b true p) host) in
    (strict = lax \/ (status lax = SUCCESS /\ status strict = WARNING))
    /\ (status lax <> ERROR -> status strict <> ERROR)
    /\ (status lax = ERROR \/ status lax = WARNING -> strict = lax)
    /\ (status strict <> status lax ->
        status lax = SUCCESS /\ status strict = WARNING).
Proof.
  intros b p host lax strict.
  pose proof (verify_strict b p host) as H; fold lax strict in H.
  repeat split.
  - exact H.
  - destruct H as [-> | [_ Hs]]; [auto | rewrite Hs; discriminate].
  - intros Hl; destruct H as [H | [Hs _]]; [exact H|].
    rewrite Hs in Hl; destruct Hl; discriminate.
  - destruct H as [-> | [Hs _]]; [congruence | exact Hs].
  - destruct H as [-> | [_ Hs]]; [congruence | exact Hs].
Qed.

(** ** The macOS parser *)

Lemma lstrip_all_space (s : string) :
  PyStr.all_space s = true -> PyStr.lstrip s = "".
Proof.
  induction s as [|c r IH]; simpl; [reflexivity|].
  destruct (PyStr.isspace c); simpl; [exact IH | discriminate].
Qed.

Lemma strip_all_space (s : string) :
  PyStr.all_space s = true -> PyStr.strip s = "".
Proof.
  intros H; unfold PyStr.strip; now rewrite (lstrip_all_space s H).
Qed.

(** A line either raises [IndexError] or appends exactly one dependency. *)
Lemma macos_line_cases (deps : list Dependency) (line : string) :
  (PyStr.split (PyStr.strip line) = []
   /\ macos_line deps line = raise (IndexError "list index out of range"))
  \/ (exists d, macos_line deps line = ret (deps ++ [d])%list).
Proof.
  unfold macos_line, getitem.
  destruct (PyStr.split (PyStr.strip line)) as [|t ts]; simpl.
  - left; split; reflexivity.
  - right; eexists; reflexivity.
Qed.

(** The only exception the macOS loop can raise is the [IndexError] of an
    empty token list. *)
Lemma macos_loop_raises (lines : list string) (deps : list Dependency) (e : PyException) :
  for_each macos_line deps lines = inl e ->
  e = IndexError "list index out of range".
Proof.
  revert deps; induction lines as [|l lines IH]; intros deps; simpl; [discriminate|].
  destruct (macos_line_cases deps l) as [[_ ->] | [d ->]]; simpl.
  - intros H; injection H as <-; reflexivity.
  - apply IH.
Qed.

Lemma macos_loop_blank (lines : list string) (deps : list Dependency) (line : string) :
  In line lines -> PyStr.all_space line = true ->
  for_each macos_line deps lines = raise (IndexError "list index out of range").
Proof.
  intros Hin Hsp; revert deps; induction lines as [|l lines IH]; intros deps;
    [destruct Hin|]; simpl.
  destruct (macos_line_cases deps l) as [[_ ->] | [d Hd]]; [reflexivity|].
  destruct Hin as [-> | Hin].
  - exfalso. unfold macos_line in Hd.
    rewrite (strip_all_space line Hsp) in Hd; discriminate.
  - rewrite Hd; simpl; apply IH; exact Hin.
Qed.

(** The loop appends one dependency per line. *)
Lemma macos_loop_length (lines : list string) (deps deps' : list Dependency) :
  for_each macos_line deps lines = inr deps' ->
  length deps' = length deps + length lines.
Proof.
  revert deps; induction lines as [|l lines IH]; intros deps; simpl.
  - intros H; injection H as <-; lia.
  - destruct (macos_line_cases deps l) as [[_ ->] | [d ->]]; simpl; [discriminate|].
    intros H; apply IH in H; rewrite H, length_app; simpl; lia.
Qed.

(** ** C10: a whitespace-only line in the [otool] listing *)

(** C10. On macOS, when [otool] exits with status 0 and one of the lines
    after the first (of [result.stdout.strip().splitlines()]) consists of
    whitespace only, the line is not skipped: taking the first token raises
    [IndexError], the catch-all handler answers, and the result has status
    ERROR, a message that begins "Error running otool" and no dependencies. *)
Theorem macos_blank_line_is_error :
  forall (self : StaticLinkingVerifier) (host : Host) (result : CompletedProcess)
         (line : string),
    subprocess_run host ["otool"; "-L"; self_binary self] = inr result ->
    returncode result = 0%Z ->
    In line (tl (PyStr.splitlines (PyStr.strip (stdout result)))) ->
    PyStr.all_space line = true ->
    status (fst (_verify_macos self host)) = ERROR
    /\ PyStr.startswith (message (fst (_verify_macos self host))) "Error running otool" = true
    /\ message (fst (_verify_macos self host))
       = "Error running otool: list index out of range"
    /\ dependencies (fst (_verify_macos self host)) = [].
Proof.
  intros self host result line Hrun Hrc Hin Hsp.
  unfold _verify_macos; simpl; rewrite Hrun; simpl.
  unfold macos_body; rewrite Hrc; simpl.
  destruct (PyStr.splitlines (PyStr.strip (stdout result))) as [|l0 [|l1 ls]] eqn:Hl;
    simpl in Hin; try contradiction.
  cbn [length Nat.leb]. unfold macos_parse; cbn [tl].
  rewrite (macos_loop_blank (l1 :: ls) [] line Hin Hsp); simpl.
  repeat split; reflexivity.
Qed.

Lemma macos_blank_line_is_error_witness :
  status (fst (_verify_macos (mkVerifier "build/app" false "Darwin")
                 (host_printing otool_blank_line))) = ERROR
  /\ PyStr.startswith
       (message (fst (_verify_macos (mkVerifier "build/app" false "Darwin")
                        (host_printing otool_blank_line))))
       "Error running otool" = true
  /\ message (fst (_verify_macos (mkVerifier "build/app" false "Darwin")
                     (host_printing otool_blank_line)))
     = "Error running otool: list index out of range"
  /\ dependencies (fst (_verify_macos (mkVerifier "build/app" false "Darwin")
                          (host_printing otool_blank_line))) = [].
Proof.
  apply (macos_blank_line_is_error (mkVerifier "build/app" false "Darwin")
           (host_printing otool_blank_line) (mkCompleted 0 otool_blank_line "") " ").
  - reflexivity.
  - reflexivity.
  - vm_compute; right; left; reflexivity.
  - reflexivity.
Defined.

(** The lines of C10 are those of the stripped output: blank lines at the
    very end of what [otool] printed are removed by [strip] before the loop
    and raise nothing. *)
Example macos_trailing_blank_is_stripped :
  PyStr.splitlines (PyStr.strip otool_trailing_blank)
  = ["build/app:";
     tab ++ "/usr/lib/libSystem.B.dylib (compatibility version 1.0.0)"]
  /\ status (fst (_verify_macos (mkVerifier "build/app" false "Darwin")
                    (host_printing otool_trailing_blank))) = SUCCESS.
Proof. split; reflexivity. Qed.

(** ** C6: only [libSystem.B.dylib] *)

(** C6. On macOS, when [otool] exits with status 0 and the parsed
    dependency list is exactly one entry whose path is
    [/usr/lib/libSystem.B.dylib], the result has status SUCCESS and its
    message contains "Optimal". *)
Theorem macos_only_libsystem_is_optimal :
  forall (self : StaticLinkingVerifier) (host : Host) (result : CompletedProcess)
         (d : Dependency),
    subprocess_run host ["otool"; "-L"; self_binary self] = inr result ->
    returncode result = 0%Z ->
    macos_parse (PyStr.splitlines (PyStr.strip (stdout result))) = inr [d] ->
    path d = Some "/usr/lib/libSystem.B.dylib" ->
    status (fst (_verify_macos self host)) = SUCCESS
    /\ PyStr.contains "Optimal" (message (fst (_verify_macos self host))) = true
    /\ dependencies (fst (_verify_macos self host)) = [d].
Proof.
  intros self host result d Hrun Hrc Hparse Hpath.
  unfold _verify_macos; simpl; rewrite Hrun; simpl.
  unfold macos_body; rewrite Hrc; simpl.
  destruct (PyStr.splitlines (PyStr.strip (stdout result))) as [|l0 [|l1 ls]] eqn:Hl;
    try discriminate Hparse.
  cbn [length Nat.leb]; rewrite Hparse; simpl.
  unfold in_path; rewrite Hpath; simpl.
  repeat split; reflexivity.
Qed.

Lemma macos_only_libsystem_is_optimal_witness :
  status (fst (_verify_macos (mkVerifier "build/app" true "Darwin")
                 (host_printing otool_libsystem))) = SUCCESS
  /\ PyStr.contains "Optimal"
       (message (fst (_verify_macos (mkVerifier "build/app" true "Darwin")
                        (host_printing otool_libsystem)))) = true
  /\ dependencies (fst (_verify_macos (mkVerifier "build/app" true "Darwin")
                          (host_printing otool_libsystem)))
     = [mkDependency "libSystem.B.dylib" (Some "/usr/lib/libSystem.B.dylib") true].
Proof.
  apply (macos_only_libsystem_is_optimal (mkVerifier "build/app" true "Darwin")
           (host_printing otool_libsystem) (mkCompleted 0 otool_libsystem "")
           (mkDependency "libSystem.B.dylib" (Some "/usr/lib/libSystem.B.dylib") true));
    reflexivity.
Defined.

(** ** C4: no dependencies reported *)

(** The static-binary marker of [ldd] decides the result on its own. *)
Lemma linux_marker_short_circuit (self : StaticLinkingVerifier) (host : Host)
      (result : CompletedProcess) :
  subprocess_run host ["ldd"; self_binary self] = inr result ->
  PyStr.contains "not a dynamic executable" (stdout result ++ stderr result) = true
  \/ PyStr.contains "not a dynamic" (stdout result ++ stderr result) = true ->
  fst (_verify_linux self host)
  = mkResult SUCCESS "Linux" (self_binary self) []
      "Fully static binary (no dynamic dependencies)"
      ["Binary is completely static"; "No shared libraries linked"].
Proof.
  intros Hrun Hm; unfold _verify_linux; simpl; rewrite Hrun; simpl.
  unfold linux_body.
  replace (_ || _) with true; [reflexivity|].
  destruct Hm as [-> | ->]; [reflexivity | now rewrite orb_true_r].
Qed.

Lemma linux_no_dependencies (self : StaticLinkingVerifier) (host : Host)
      (result : CompletedProcess) :
  subprocess_run host ["ldd"; self_binary self] = inr result ->
  linux_parse (stdout result ++ stderr result) = inr [] ->
  status (fst (_verify_linux self host)) = SUCCESS
  /\ dependencies (fst (_verify_linux self host)) = [].
Proof.
  intros Hrun Hp; unfold _verify_linux; simpl; rewrite Hrun; simpl.
  unfold linux_body; destruct (_ || _); simpl; [split; reflexivity|].
  rewrite Hp; simpl; split; reflexivity.
Qed.

Lemma macos_no_dependencies (self : StaticLinkingVerifier) (host : Host)
      (result : CompletedProcess) :
  subprocess_run host ["otool"; "-L"; self_binary self] = inr result ->
  returncode result = 0%Z ->
  macos_parse (PyStr.splitlines (PyStr.strip (stdout result))) = inr [] ->
  status (fst (_verify_macos self host)) = SUCCESS
  /\ dependencies (fst (_verify_macos self host)) = [].
Proof.
  intros Hrun Hrc Hp; unfold _verify_macos; simpl; rewrite Hrun; simpl.
  unfold macos_body; rewrite Hrc; simpl.
  destruct (PyStr.splitlines (PyStr.strip (stdout result))) as [|l0 [|l1 ls]];
    try (split; reflexivity).
  exfalso. unfold macos_parse in Hp; cbn [tl] in Hp.
  apply macos_loop_length in Hp; simpl in Hp; discriminate.
Qed.

Lemma windows_no_dependencies (self : StaticLinkingVerifier) (host : Host)
      (result : CompletedProcess) :
  subprocess_run host ["dumpbin"; "/dependents"; self_binary self] = inr result ->
  returncode result = 0%Z ->
  windows_parse (stdout result) = inr [] ->
  status (fst (_verify_windows self host)) = SUCCESS
  /\ dependencies (fst (_verify_windows self host)) = [].
Proof.
  intros Hrun Hrc Hp; unfold _verify_windows; simpl; rewrite Hrun; simpl.
  unfold windows_body; rewrite Hrc; simpl; rewrite Hp; simpl.
  split; reflexivity.
Qed.

(** C4. On each supported platform, when the inspection tool ran (with
    exit status 0 where the code asks for it) and the dependency list parsed
    from its output is empty, the result has status SUCCESS and an empty
    dependency list.  On Linux an output that contains "not a dynamic
    executable" (or just "not a dynamic") yields the fixed fully-static
    result at once, whatever the rest of the output would parse to. *)
Theorem zero_dependencies_is_success :
  forall (self : StaticLinkingVerifier) (host : Host) (result : CompletedProcess),
    (subprocess_run host ["ldd"; self_binary self] = inr result ->
     (PyStr.contains "not a dynamic executable" (stdout result ++ stderr result) = true
      \/ PyStr.contains "not a dynamic" (stdout result ++ stderr result) = true ->
      fst (_verify_linux self host)
      = mkResult SUCCESS "Linux" (self_binary self) []
          "Fully static binary (no dynamic dependencies)"
          ["Binary is completely static"; "No shared libraries linked"])
     /\ (linux_parse (stdout result ++ stderr result) = inr [] ->
         status (fst (_verify_linux self host)) = SUCCESS
         /\ dependencies (fst (_verify_linux self host)) = []))
    /\ (subprocess_run host ["otool"; "-L"; self_binary self] = inr result ->
        returncode result = 0%Z ->
        macos_parse (PyStr.splitlines (PyStr.strip (stdout result))) = inr [] ->
        status (fst (_verify_macos self host)) = SUCCESS
        /\ dependencies (fst (_verify_macos self host)) = [])
    /\ (subprocess_run host ["dumpbin"; "/dependents"; self_binary self] = inr result ->
        returncode result = 0%Z ->
        windows_parse (stdout result) = inr [] ->
        status (fst (_verify_windows self host)) = SUCCESS
        /\ dependencies (fst (_verify_windows self host)) = []).
Proof.
  intros self host result; split; [|split].
  - intros Hrun; split.
    + apply linux_marker_short_circuit; exact Hrun.
    + apply linux_no_dependencies; exact Hrun.
  - apply macos_no_dependencies.
  - apply windows_no_dependencies.
Qed.

Lemma zero_dependencies_is_success_witness :
  fst (_verify_linux (mkVerifier "build/app" false "Linux") (host_printing ldd_static))
  = mkResult SUCCESS "Linux" "build/app" []
      "Fully static binary (no dynamic dependencies)"
      ["Binary is completely static"; "No shared libraries linked"]
  /\ (status (fst (_verify_macos (mkVerifier "build/app" false "Darwin")
                     (host_printing "build/app:"))) = SUCCESS
      /\ dependencies (fst (_verify_macos (mkVerifier "build/app" false "Darwin")
                              (host_printing "build/app:"))) = [])
  /\ (status (fst (_verify_windows (mkVerifier "build/app" false "Windows")
                     (host_printing dumpbin_no_imports))) = SUCCESS
      /\ dependencies (fst (_verify_windows (mkVerifier "build/app" false "Windows")
                              (host_printing dumpbin_no_imports))) = []).
Proof.
  split; [|split].
  - apply (proj1 (zero_dependencies_is_success (mkVerifier "build/app" false "Linux")
                    (host_printing ldd_static) (mkCompleted 0 ldd_static ""))).
    + reflexivity.
    + left; reflexivity.
  - apply (proj1 (proj2 (zero_dependencies_is_success
                           (mkVerifier "build/app" false "Darwin")
                           (host_printing "build/app:")
                           (mkCompleted 0 "build/app:" "")))); reflexivity.
  - apply (proj2 (proj2 (zero_dependencies_is_success
                           (mkVerifier "build/app" false "Windows")
                           (host_printing dumpbin_no_imports)
                           (mkCompleted 0 dumpbin_no_imports "")))); reflexivity.
Defined.

(** ** C2, C1: the verdict from the classified list *)

Lemma non_system_nil (deps : list Dependency) :
  non_system deps = [] <-> forallb is_system deps = true.
Proof.
  unfold non_system; induction deps as [|d deps IH]; simpl; [tauto|].
  destruct (is_system d); simpl; [exact IH|].
  split; discriminate.
Qed.

(** The results [_verify_linux] can return that carry dependencies. *)
Lemma _verify_linux_with_dependencies (self : StaticLinkingVerifier) (host : Host) :
  let r := fst (_verify_linux self host) in
  dependencies r <> [] ->
  (non_system (dependencies r) = []
   /\ status r = (if self_strict self then WARNING else SUCCESS))
  \/ (non_system (dependencies r) <> []
      /\ status r = ERROR
      /\ message r = "Dynamic binary with "
                     ++ PyStr.of_nat (length (non_system (dependencies r)))
                     ++ " non-system dependencies").
Proof.
  unfold _verify_linux; simpl.
  destruct (subprocess_run host ["ldd"; self_binary self]) as [e|result]; simpl.
  - destruct e; simpl; congruence.
  - unfold linux_body. destruct (_ || _); simpl; [congruence|].
    destruct (linux_parse _) as [e|deps]; simpl; [destruct e; simpl; congruence|].
    destruct deps as [|d deps]; simpl; [congruence|]. intros _.
    destruct (non_system (d :: deps)) as [|n ns] eqn:Hn; simpl; rewrite Hn.
    + left; split; reflexivity.
    + right; repeat split; try reflexivity; discriminate.
Qed.

(** The results [_verify_windows] can return that carry dependencies. *)
Lemma _verify_windows_with_dependencies (self : StaticLinkingVerifier) (host : Host) :
  let r := fst (_verify_windows self host) in
  dependencies r <> [] ->
  (non_system (dependencies r) = [] /\ status r = SUCCESS)
  \/ (non_system (dependencies r) <> []
      /\ status r = ERROR
      /\ message r = "Dynamic binary with "
                     ++ PyStr.of_nat (length (non_system (dependencies r)))
                     ++ " third-party dependencies").
Proof.
  unfold _verify_windows; simpl.
  destruct (subprocess_run host ["dumpbin"; "/dependents"; self_binary self])
    as [e|result]; simpl.
  - destruct e; simpl; congruence.
  - unfold windows_body. destruct (negb _); simpl; [congruence|].
    destruct (windows_parse _) as [e|deps]; simpl; [destruct e; simpl; congruence|].
    unfold windows_evaluate.
    destruct deps as [|d deps]; simpl; [congruence|]. intros _.
    destruct (non_system (d :: deps)) as [|n ns] eqn:Hn; simpl; rewrite Hn.
    + left; split; reflexivity.
    + right; repeat split; try reflexivity; discriminate.
Qed.

(** C2, as the code has it.  For a non-empty dependency list whose entries
    are all system-classified: on Linux the status is SUCCESS when [strict]
    is false and WARNING when it is true; on Windows the status is SUCCESS
    whatever [strict] is. *)
Theorem system_only_verdict :
  forall (self : StaticLinkingVerifier) (host : Host),
    (dependencies (fst (_verify_linux self host)) <> [] ->
     forallb is_system (dependencies (fst (_verify_linux self host))) = true ->
     status (fst (_verify_linux self host))
     = if self_strict self then WARNING else SUCCESS)
    /\ (dependencies (fst (_verify_windows self host)) <> [] ->
        forallb is_system (dependencies (fst (_verify_windows self host))) = true ->
        status (fst (_verify_windows self host)) = SUCCESS).
Proof.
  intros self host; split; intros Hne Hall; apply non_system_nil in Hall.
  - destruct (_verify_linux_with_dependencies self host Hne) as [[_ H] | [H _]];
      [exact H | contradiction].
  - destruct (_verify_windows_with_dependencies self host Hne) as [[_ H] | [H _]];
      [exact H | contradiction].
Qed.

Lemma system_only_verdict_witness :
  status (fst (_verify_linux (mkVerifier "build/app" true "Linux")
                 (host_printing ldd_libc_only))) = WARNING
  /\ status (fst (_verify_linux (mkVerifier "build/app" false "Linux")
                    (host_printing ldd_libc_only))) = SUCCESS
  /\ status (fst (_verify_windows (mkVerifier "app.exe" true "Windows")
                    (host_printing dumpbin_kernel32))) = SUCCESS.
Proof.
  split; [|split].
  - apply (proj1 (system_only_verdict (mkVerifier "build/app" true "Linux")
                    (host_printing ldd_libc_only))); [discriminate | reflexivity].
  - apply (proj1 (system_only_verdict (mkVerifier "build/app" false "Linux")
                    (host_printing ldd_libc_only))); [discriminate | reflexivity].
  - apply (proj2 (system_only_verdict (mkVerifier "app.exe" true "Windows")
                    (host_printing dumpbin_kernel32))); [discriminate | reflexivity].
Defined.

(** C2 fails on Windows: with [strict = true] and [KERNEL32.dll] as the
    only dependency, the list is non-empty and all system, and the status is
    SUCCESS, not WARNING. *)
Lemma windows_strict_system_only_is_success :
  dependencies (fst (_verify_windows (mkVerifier "app.exe" true "Windows")
                       (host_printing dumpbin_kernel32)))
  = [mkDependency "KERNEL32.dll" None true]
  /\ forallb is_system
       (dependencies (fst (_verify_windows (mkVerifier "app.exe" true "Windows")
                             (host_printing dumpbin_kernel32)))) = true
  /\ status (fst (_verify_windows (mkVerifier "app.exe" true "Windows")
                    (host_printing dumpbin_kernel32))) = SUCCESS
  /\ status (fst (_verify_windows (mkVerifier "app.exe" true "Windows")
                    (host_printing dumpbin_kernel32))) <> WARNING.
Proof. repeat split; try reflexivity; discriminate. Qed.

(** C1 at the failing input.  [otool] lists one library,
    [/opt/sdk/usr/lib/libSystem.B.dylib]: it does not begin with [/usr/lib/],
    so it is classified non-system, yet its path contains
    [/usr/lib/libSystem.B.dylib] and the result is SUCCESS, with no count of
    non-system dependencies reported. *)
Theorem macos_foreign_libsystem_passes :
  dependencies (fst (_verify_macos (mkVerifier "build/app" false "Darwin")
                       (host_printing otool_foreign_libsystem)))
  = [mkDependency "libSystem.B.dylib" (Some "/opt/sdk/usr/lib/libSystem.B.dylib") false]
  /\ length (non_system
               (dependencies (fst (_verify_macos (mkVerifier "build/app" false "Darwin")
                                     (host_printing otool_foreign_libsystem))))) = 1
  /\ status (fst (_verify_macos (mkVerifier "build/app" false "Darwin")
                    (host_printing otool_foreign_libsystem))) = SUCCESS
  /\ message (fst (_verify_macos (mkVerifier "build/app" false "Darwin")
                     (host_printing otool_foreign_libsystem)))
     = "Optimal static binary (only libSystem required by macOS)".
Proof. repeat split; reflexivity. Qed.

(** ** C5: the scan of the [dumpbin] listing *)

(** One turn of the loop, by cases on the stripped line. *)
Lemma windows_line_eq (deps : list Dependency) (flag : bool) (line : string) :
  windows_line (deps, flag) line
  = ret (if has_marker (PyStr.strip line) then (deps, true)
         else if flag && recordable (PyStr.strip line)
              then ((deps ++ [windows_dependency (PyStr.strip line)])%list, flag)
              else (deps, flag)).
Proof.
  unfold windows_line, recordable, has_marker, windows_dependency.
  destruct (PyStr.contains deps_marker (PyStr.strip line)); simpl; [reflexivity|].
  destruct flag; simpl; [|reflexivity].
  destruct (PyStr.truthy (PyStr.strip line)); simpl; [|reflexivity].
  destruct (PyStr.startswith (PyStr.strip line) "Summary"); simpl; [reflexivity|].
  destruct (PyStr.endswith (PyStr.strip line) ".dll"); reflexivity.
Qed.

Lemma marker_not_recordable (line : string) :
  has_marker line = true -> recordable line = false.
Proof. intros H; unfold recordable; now rewrite H. Qed.

(** The loop once the marker has been seen. *)
Lemma windows_loop_on (lines : list string) (deps : list Dependency) :
  for_each windows_line (deps, true) lines
  = ret ((deps ++ map windows_dependency
                    (filter recordable (map PyStr.strip lines)))%list, true).
Proof.
  revert deps; induction lines as [|l lines IH]; intros deps.
  - simpl; now rewrite app_nil_r.
  - cbn [for_each map filter]; rewrite windows_line_eq; cbn [andb].
    destruct (has_marker (PyStr.strip l)) eqn:Hm.
    + rewrite (marker_not_recordable _ Hm); unfold ret at 1; cbn [bind]; apply IH.
    + destruct (recordable (PyStr.strip l)); unfold ret at 1; cbn [bind map];
        rewrite IH; [now rewrite <- app_assoc | reflexivity].
Qed.

(** The loop before the marker has been seen. *)
Lemma windows_loop_off (lines : list string) (deps : list Dependency) :
  exists flag,
    for_each windows_line (deps, false) lines
    = ret ((deps ++ map windows_dependency
                      (filter recordable (after_marker (map PyStr.strip lines))))%list,
           flag).
Proof.
  revert deps; induction lines as [|l lines IH]; intros deps.
  - exists false; simpl; now rewrite app_nil_r.
  - cbn [for_each map after_marker]; rewrite windows_line_eq; cbn [andb].
    destruct (has_marker (PyStr.strip l)); unfold ret at 1; cbn [bind].
    + exists true; apply windows_loop_on.
    + apply IH.
Qed.

(** [windows_parse] never raises, and it is the filter. *)
Lemma windows_parse_eq (out : string) :
  windows_parse out
  = ret (map windows_dependency
           (filter recordable
              (after_marker (map PyStr.strip (PyStr.splitlines out))))).
Proof.
  unfold windows_parse.
  destruct (windows_loop_off (PyStr.splitlines out) []) as [flag ->]; reflexivity.
Qed.

Lemma after_marker_In (lines : list string) (l : string) :
  In l (after_marker lines) ->
  exists before after,
    lines = (before ++ l :: after)%list
    /\ exists m, In m before /\ has_marker m = true.
Proof.
  induction lines as [|x lines IH]; simpl; [contradiction|].
  destruct (has_marker x) eqn:Hx; intros Hin.
  - apply in_split in Hin as [l1 [l2 ->]].
    exists (x :: l1), l2; split; [reflexivity|].
    exists x; split; [left; reflexivity | exact Hx].
  - destruct (IH Hin) as [before [after [-> [m [Hm1 Hm2]]]]].
    exists (x :: before), after; split; [reflexivity|].
    exists m; split; [right; exact Hm1 | exact Hm2].
Qed.

Lemma In_after_marker (before after : list string) (l m : string) :
  In m before -> has_marker m = true ->
  In l (after_marker (before ++ l :: after)%list).
Proof.
  induction before as [|x before IH]; simpl; [contradiction|].
  intros Hin Hm; destruct (has_marker x) eqn:Hx.
  - apply in_or_app; right; left; reflexivity.
  - destruct Hin as [-> | Hin]; [congruence | exact (IH Hin Hm)].
Qed.

Lemma recordable_true (l : string) :
  recordable l = true <->
  has_marker l = false /\ PyStr.startswith l "Summary" = false
  /\ PyStr.endswith l ".dll" = true.
Proof.
  unfold recordable; split.
  - intros H; repeat (apply andb_prop in H as [H ?]).
    repeat split; try assumption; now apply negb_true_iff.
  - intros [Hm [Hs He]]; rewrite Hm, Hs, He; simpl.
    destruct l; [discriminate He | reflexivity].
Qed.

(** C5, as the code has it.  For every [dumpbin] output the scan raises
    nothing and records, in order, the stripped lines that come after the
    first line containing "Image has the following dependencies:" and that
    end in ".dll", do not begin with "Summary" and do not themselves contain
    the marker.  So every recorded name is a line after a marker line, is not
    a "Summary" line and ends in ".dll"; and every such line is recorded,
    wherever it stands: a line beginning "Summary" is passed over without
    ending the scan. *)
Theorem windows_scan :
  forall (out : string),
    let lines := map PyStr.strip (PyStr.splitlines out) in
    exists deps : list Dependency,
      windows_parse out = inr deps
      /\ deps = map windows_dependency (filter recordable (after_marker lines))
      /\ (forall d, In d deps ->
            path d = None
            /\ PyStr.contains deps_marker (name d) = false
            /\ PyStr.startswith (name d) "Summary" = false
            /\ PyStr.endswith (name d) ".dll" = true
            /\ exists before after m,
                 lines = (before ++ name d :: after)%list
                 /\ In m before /\ PyStr.contains deps_marker m = true)
      /\ (forall before l after m,
            lines = (before ++ l :: after)%list ->
            In m before -> PyStr.contains deps_marker m = true ->
            PyStr.contains deps_marker l = false ->
            PyStr.startswith l "Summary" = false ->
            PyStr.endswith l ".dll" = true ->
            In l (map name deps)).
Proof.
  intros out lines.
  exists (map windows_dependency (filter recordable (after_marker lines))).
  split; [apply windows_parse_eq|]. split; [reflexivity|]. split.
  - intros d Hd. apply in_map_iff in Hd as [l [<- Hl]].
    apply filter_In in Hl as [Hin Hrec].
    apply recordable_true in Hrec as [Hm [Hs He]].
    apply after_marker_In in Hin as [before [after [Heq [m [Hm1 Hm2]]]]].
    simpl; repeat split; try assumption.
    exists before, after, m; repeat split; assumption.
  - intros before l after m Heq Hin Hm Hl Hs He.
    rewrite map_map; simpl. rewrite map_id.
    apply filter_In; split.
    + rewrite Heq; exact (In_after_marker before after l m Hin Hm).
    + apply recordable_true; repeat split; assumption.
Qed.

(** C5 fails on the "Summary" clause: in this listing [late.dll] stands
    after the line "Summary", and it is recorded. *)
Lemma windows_records_after_summary :
  map PyStr.strip (PyStr.splitlines dumpbin_dll_after_summary)
  = ["Image has the following dependencies:"; ""; "KERNEL32.dll"; "";
     "Summary"; ""; "1000 .data"; "late.dll"]
  /\ windows_parse dumpbin_dll_after_summary
     = inr [mkDependency "KERNEL32.dll" None true;
            mkDependency "late.dll" None false]
  /\ dependencies (fst (_verify_windows (mkVerifier "app.exe" false "Windows")
                          (host_printing dumpbin_dll_after_summary)))
     = [mkDependency "KERNEL32.dll" None true;
        mkDependency "late.dll" None false].
Proof. repeat split; reflexivity. Qed.

(** ** The count in the message *)

(** [str(n)] determines [n]. *)
Lemma of_nat_inj (n m : nat) : PyStr.of_nat n = PyStr.of_nat m -> n = m.
Proof.
  unfold PyStr.of_nat; intros H.
  apply (f_equal NilEmpty.uint_of_string) in H.
  rewrite !NilEmpty.usu in H. injection H as H.
  now apply Unsigned.to_uint_inj.
Qed.

Lemma macos_evaluate_dependencies (self : StaticLinkingVerifier) (deps : list Dependency) :
  dependencies (macos_evaluate self deps) = deps.
Proof.
  unfold macos_evaluate.
  destruct (non_system deps); [destruct (_ <=? 3)|]; reflexivity.
Qed.

Lemma macos_evaluate_non_system (self : StaticLinkingVerifier) (deps : list Dependency) :
  non_system deps <> [] ->
  status (macos_evaluate self deps) = ERROR
  /\ message (macos_evaluate self deps)
     = "Dynamic binary with " ++ PyStr.of_nat (length (non_system deps))
       ++ " third-party dependencies".
Proof.
  unfold macos_evaluate.
  destruct (non_system deps); [congruence | split; reflexivity].
Qed.

(** The results [_verify_macos] can return that carry a non-system
    dependency: the ERROR with the count, or the single-entry case. *)
Lemma _verify_macos_with_non_system (self : StaticLinkingVerifier) (host : Host) :
  let r := fst (_verify_macos self host) in
  non_system (dependencies r) <> [] ->
  (status r = ERROR
   /\ message r = "Dynamic binary with "
                  ++ PyStr.of_nat (length (non_system (dependencies r)))
                  ++ " third-party dependencies")
  \/ (exists d p, dependencies r = [d] /\ path d = Some p
                  /\ PyStr.contains "/usr/lib/libSystem.B.dylib" p = true
                  /\ status r = SUCCESS).
Proof.
  unfold _verify_macos; simpl.
  destruct (subprocess_run host ["otool"; "-L"; self_binary self]) as [e|result]; simpl.
  - destruct e; simpl; absurd_empty.
  - unfold macos_body. destruct (negb _); simpl; [absurd_empty|].
    destruct (_ <=? 1); simpl; [absurd_empty|].
    destruct (macos_parse _) as [e|deps]; simpl; [destruct e; simpl; absurd_empty|].
    assert (Hev : non_system (dependencies (macos_evaluate self deps)) <> [] ->
                  status (macos_evaluate self deps) = ERROR
                  /\ message (macos_evaluate self deps)
                     = "Dynamic binary with "
                       ++ PyStr.of_nat
                            (length (non_system (dependencies (macos_evaluate self deps))))
                       ++ " third-party dependencies")
      by (rewrite macos_evaluate_dependencies; apply macos_evaluate_non_system).
    destruct (length deps =? 1) eqn:Hlen; simpl; [|left; now apply Hev].
    destruct deps as [|d [|d' deps]]; try discriminate Hlen; simpl.
    unfold in_path; destruct (path d) as [p|] eqn:Hp; simpl; [|absurd_empty].
    destruct (PyStr.contains "/usr/lib/libSystem.B.dylib" p) eqn:Hc; simpl.
    + intros _; right; exists d, p; repeat split; assumption.
    + left; now apply Hev.
Qed.

(** On Linux and on Windows a result whose dependency list has a non-system
    entry is an ERROR whose message carries the number of non-system
    entries; on macOS the same holds unless the list is a single entry whose
    path contains [/usr/lib/libSystem.B.dylib]. *)
Theorem non_system_count_reported :
  forall (self : StaticLinkingVerifier) (host : Host),
    (non_system (dependencies (fst (_verify_linux self host))) <> [] ->
     status (fst (_verify_linux self host)) = ERROR
     /\ message (fst (_verify_linux self host))
        = "Dynamic binary with "
          ++ PyStr.of_nat (length (non_system (dependencies (fst (_verify_linux self host)))))
          ++ " non-system dependencies")
    /\ (non_system (dependencies (fst (_verify_windows self host))) <> [] ->
        status (fst (_verify_windows self host)) = ERROR
        /\ message (fst (_verify_windows self host))
           = "Dynamic binary with "
             ++ PyStr.of_nat (length (non_system (dependencies (fst (_verify_windows self host)))))
             ++ " third-party dependencies")
    /\ (non_system (dependencies (fst (_verify_macos self host))) <> [] ->
        (forall d p, dependencies (fst (_verify_macos self host)) = [d] ->
                     path d = Some p ->
                     PyStr.contains "/usr/lib/libSystem.B.dylib" p = false) ->
        status (fst (_verify_macos self host)) = ERROR
        /\ message (fst (_verify_macos self host))
           = "Dynamic binary with "
             ++ PyStr.of_nat (length (non_system (dependencies (fst (_verify_macos self host)))))
             ++ " third-party dependencies").
Proof.
  intros self host; split; [|split].
  - intros Hn.
    assert (Hne : dependencies (fst (_verify_linux self host)) <> [])
      by (intros E; rewrite E in Hn; apply Hn; reflexivity).
    destruct (_verify_linux_with_dependencies self host Hne) as [[H _] | [_ H]];
      [contradiction | exact H].
  - intros Hn.
    assert (Hne : dependencies (fst (_verify_windows self host)) <> [])
      by (intros E; rewrite E in Hn; apply Hn; reflexivity).
    destruct (_verify_windows_with_dependencies self host Hne) as [[H _] | [_ H]];
      [contradiction | exact H].
  - intros Hn Hnot.
    destruct (_verify_macos_with_non_system self host Hn)
      as [H | [d [p [Hd [Hp [Hc _]]]]]]; [exact H|].
    rewrite (Hnot d p Hd Hp) in Hc; discriminate.
Qed.

(** ** The Linux parser raises nothing *)

Lemma split_sep_from_length (sep : string) (s : string) (skip : nat) (acc : list ascii) :
  1 <= length (PyStr.split_sep_from sep skip acc s).
Proof.
  revert skip acc; induction s as [|c r IH]; intros skip acc;
    cbn [PyStr.split_sep_from]; [simpl; lia|].
  destruct skip; [|apply IH].
  destruct (PyStr.startswith (String c r) sep); [simpl; lia | apply IH].
Qed.

(** Where the separator occurs, [split] gives at least two parts. *)
Lemma split_sep_contains (sep s : string) (acc : list ascii) :
  sep <> "" -> PyStr.contains sep s = true ->
  2 <= length (PyStr.split_sep_from sep 0 acc s).
Proof.
  intros Hsep; revert acc; induction s as [|c r IH]; intros acc.
  - destruct sep; [congruence | discriminate].
  - cbn [PyStr.contains PyStr.split_sep_from].
    destruct (PyStr.startswith (String c r) sep); simpl.
    + intros _.
      pose proof (split_sep_from_length sep r (String.length sep - 1) []); lia.
    + apply IH.
Qed.

Lemma lstrip_head (s : string) (c : ascii) (r : string) :
  PyStr.lstrip s = String c r -> PyStr.isspace c = false.
Proof.
  induction s as [|a s IH]; simpl; [discriminate|].
  destruct (PyStr.isspace a) eqn:Ha; [exact IH|].
  intros H; injection H as <- _; exact Ha.
Qed.

Lemma rstrip_head (s : string) (c : ascii) (r : string) :
  PyStr.rstrip s = String c r -> exists r', s = String c r'.
Proof.
  destruct s as [|a s]; simpl; [discriminate|].
  destruct (PyStr.isspace a && negb (PyStr.truthy (PyStr.rstrip s))); [discriminate|].
  intros H; injection H as <- _; eexists; reflexivity.
Qed.

(** A stripped string does not begin with whitespace. *)
Lemma strip_head (s : string) (c : ascii) (r : string) :
  PyStr.strip s = String c r -> PyStr.isspace c = false.
Proof.
  unfold PyStr.strip; intros H.
  apply rstrip_head in H as [r' H]. exact (lstrip_head s c r' H).
Qed.

Lemma split_from_pending (s : string) (a : ascii) (acc : list ascii) :
  PyStr.split_from (a :: acc) s <> [].
Proof.
  revert a acc; induction s as [|c r IH]; intros a acc; simpl; [discriminate|].
  destruct (PyStr.isspace c); [discriminate | apply IH].
Qed.

(** A non-empty stripped string has a first token. *)
Lemma split_strip_nonempty (s : string) :
  0 < String.length (PyStr.strip s) -> PyStr.split (PyStr.strip s) <> [].
Proof.
  destruct (PyStr.strip s) as [|c r] eqn:Hs; simpl; [lia|]. intros _.
  unfold PyStr.split; simpl. rewrite (strip_head s c r Hs).
  apply split_from_pending.
Qed.

Lemma linux_line_total (deps : list Dependency) (line : string) :
  linux_line deps line = ret deps
  \/ exists d, linux_line deps line = ret (deps ++ [d])%list.
Proof.
  unfold linux_line.
  destruct (PyStr.contains "=>" (PyStr.strip line)) eqn:Hc; [|left; reflexivity].
  right. unfold PyStr.split_sep.
  pose proof (split_sep_contains "=>" (PyStr.strip line) [] ltac:(discriminate) Hc) as Hlen.
  destruct (PyStr.split_sep_from "=>" 0 [] (PyStr.strip line)) as [|p0 [|p1 ps]];
    simpl in Hlen; try lia.
  unfold getitem; cbn [nth_error bind ret].
  destruct (0 <? String.length (PyStr.strip p1)) eqn:Hp.
  - apply Nat.ltb_lt in Hp. apply split_strip_nonempty in Hp.
    destruct (PyStr.split (PyStr.strip p1)) as [|t ts]; [congruence|].
    cbn [nth_error bind ret]; eexists; reflexivity.
  - cbn [bind ret]; eexists; reflexivity.
Qed.

Lemma linux_loop_total (lines : list string) (deps : list Dependency) :
  exists deps', for_each linux_line deps lines = ret deps'.
Proof.
  revert deps; induction lines as [|l lines IH]; intros deps; simpl.
  - eexists; reflexivity.
  - destruct (linux_line_total deps l) as [-> | [d ->]]; simpl; apply IH.
Qed.

(** The loop of [_verify_linux] raises no exception, whatever [ldd] printed:
    every line that contains "=>" splits in at least two parts, and a
    non-empty stripped part has a first token. *)
Theorem linux_parse_total :
  forall (output : string), exists deps, linux_parse output = inr deps.
Proof. intros output; apply linux_loop_total. Qed.

(** * Further properties of the verifier *)

(** ** [main]: exit status and commands *)

Lemma main_run_exit (args : Namespace) (system : string) (host : Host) :
  run_exit (main args system host)
  = match status (fst (verify (mkVerifier (args_binary args) (args_strict args) system) host)) with
    | ERROR => 1
    | _ => 0
    end%Z.
Proof.
  unfold main.
  destruct (verify _ host) as [result started]; simpl.
  destruct (status result); reflexivity.
Qed.

Lemma verify_started_strict (b p : string) (s1 s2 : bool) (host : Host) :
  snd (verify (mkVerifier b s1 p) host) = snd (verify (mkVerifier b s2 p) host).
Proof.
  unfold verify; simpl.
  destruct (path_exists host b), (path_is_file host b); simpl; try reflexivity.
  destruct (String.eqb p "Linux"); [reflexivity|].
  destruct (String.eqb p "Darwin"); [reflexivity|].
  destruct (String.eqb p "Windows"); reflexivity.
Qed.

Lemma exit_of_status_strict (b p : string) (host : Host) :
  match status (fst (verify (mkVerifier b true p) host)) with ERROR => 1 | _ => 0 end%Z
  = match status (fst (verify (mkVerifier b false p) host)) with ERROR => 1 | _ => 0 end%Z.
Proof.
  destruct (verify_strict b p host) as [-> | [-> ->]]; reflexivity.
Qed.

(** On a [Host], where the [stat] calls answer and every text can be
    printed, the exit status of [main] and the commands it starts are the
    same with and without [--strict] and [--verbose]. *)
Lemma main_exit_ignores_strict :
  forall (b system : string) (s1 v1 s2 v2 : bool) (host : Host),
    run_exit (main (mkArgs b s1 v1) system host)
    = run_exit (main (mkArgs b s2 v2) system host)
    /\ run_started (main (mkArgs b s1 v1) system host)
       = run_started (main (mkArgs b s2 v2) system host).
Proof.
  intros b system s1 v1 s2 v2 host; split.
  - rewrite !main_run_exit; simpl.
    destruct s1, s2; try reflexivity;
      [apply exit_of_status_strict | symmetry; apply exit_of_status_strict].
  - unfold main; simpl.
    pose proof (verify_started_strict b system s1 s2 host) as Hs.
    destruct (verify (mkVerifier b s1 system) host) as [r1 c1].
    destruct (verify (mkVerifier b s2 system) host) as [r2 c2].
    simpl in Hs; subst c2. reflexivity.
Qed.

(** ** The inspection tool cannot be run, or fails *)



(** The exit status of the tool.  On macOS and Windows a non-zero status is
    an ERROR without dependencies, whatever the tool printed; on Linux the
    status is never read: the result is decided by the printed text alone
    ([ldd] exits with 1 on a static binary). *)
Theorem tool_exit_status_handling :
  forall (self : StaticLinkingVerifier) (host : Host) (result : CompletedProcess),
    (subprocess_run host ["otool"; "-L"; self_binary self] = inr result ->
     returncode result <> 0%Z ->
     fst (_verify_macos self host)
     = mkResult ERROR "macOS" (self_binary self) []
         ("otool failed: " ++ stderr result) [])
    /\ (subprocess_run host ["dumpbin"; "/dependents"; self_binary self] = inr result ->
        returncode result <> 0%Z ->
        fst (_verify_windows self host)
        = mkResult ERROR "Windows" (self_binary self) []
            "Could not analyze binary (dumpbin not found)"
            ["Install Visual Studio or use Windows SDK"])
    /\ (forall (host' : Host) (rc : Z),
          subprocess_run host ["ldd"; self_binary self] = inr result ->
          subprocess_run host' ["ldd"; self_binary self]
          = inr (mkCompleted rc (stdout result) (stderr result)) ->
          fst (_verify_linux self host') = fst (_verify_linux self host)).
Proof.
  intros self host result; split; [|split].
  - intros Hrun Hrc; unfold _verify_macos; simpl; rewrite Hrun; simpl.
    unfold macos_body. apply Z.eqb_neq in Hrc; rewrite Hrc; reflexivity.
  - intros Hrun Hrc; unfold _verify_windows; simpl; rewrite Hrun; simpl.
    unfold windows_body. apply Z.eqb_neq in Hrc; rewrite Hrc; reflexivity.
  - intros host' rc Hrun Hrun'; unfold _verify_linux; simpl.
    rewrite Hrun, Hrun'; reflexivity.
Qed.

Lemma tool_exit_status_handling_witness :
  fst (_verify_macos (mkVerifier "build/app" false "Darwin")
         (host_exiting 1 otool_libsystem))
  = mkResult ERROR "macOS" "build/app" [] "otool failed: " []
  /\ fst (_verify_linux (mkVerifier "build/app" false "Linux") (host_exiting 1 ldd_static))
     = fst (_verify_linux (mkVerifier "build/app" false "Linux") (host_printing ldd_static)).
Proof.
  split.
  - apply (proj1 (tool_exit_status_handling (mkVerifier "build/app" false "Darwin")
                    (host_exiting 1 otool_libsystem) (mkCompleted 1 otool_libsystem "")));
      [reflexivity | discriminate].
  - apply (proj2 (proj2 (tool_exit_status_handling (mkVerifier "build/app" false "Linux")
                           (host_printing ldd_static) (mkCompleted 0 ldd_static "")))
             (host_exiting 1 ldd_static) 1%Z); reflexivity.
Defined.

(** ** What a passing verdict guarantees *)

Lemma _verify_macos_with_dependencies (self : StaticLinkingVerifier) (host : Host) :
  let r := fst (_verify_macos self host) in
  dependencies r <> [] ->
  (exists d p, dependencies r = [d] /\ path d = Some p
               /\ PyStr.contains "/usr/lib/libSystem.B.dylib" p = true
               /\ status r = SUCCESS)
  \/ (non_system (dependencies r) = [] /\ length (dependencies r) <= 3
      /\ status r = SUCCESS)
  \/ (non_system (dependencies r) = [] /\ 3 < length (dependencies r)
      /\ status r = WARNING)
  \/ (non_system (dependencies r) <> [] /\ status r = ERROR).
Proof.
  unfold _verify_macos; simpl.
  destruct (subprocess_run host ["otool"; "-L"; self_binary self]) as [e|result]; simpl.
  - destruct e; simpl; congruence.
  - unfold macos_body. destruct (negb _); simpl; [congruence|].
    destruct (_ <=? 1); simpl; [congruence|].
    destruct (macos_parse _) as [e|deps]; simpl; [destruct e; simpl; congruence|].
    assert (Hev : let r := macos_evaluate self deps in
                  (non_system (dependencies r) = [] /\ length (dependencies r) <= 3
                   /\ status r = SUCCESS)
                  \/ (non_system (dependencies r) = [] /\ 3 < length (dependencies r)
                      /\ status r = WARNING)
                  \/ (non_system (dependencies r) <> [] /\ status r = ERROR)).
    { cbv zeta; rewrite macos_evaluate_dependencies. unfold macos_evaluate.
      destruct (non_system deps) as [|n ns] eqn:Hn.
      - destruct (length deps <=? 3) eqn:Hl; simpl.
        + left; apply Nat.leb_le in Hl; auto.
        + right; left; apply Nat.leb_gt in Hl; auto.
      - right; right; split; [discriminate | reflexivity]. }
    destruct (length deps =? 1) eqn:Hlen; simpl; [|intros _; right; exact Hev].
    destruct deps as [|d [|d' deps]]; try discriminate Hlen; simpl.
    unfold in_path; destruct (path d) as [p|] eqn:Hp; simpl; [|congruence].
    destruct (PyStr.contains "/usr/lib/libSystem.B.dylib" p) eqn:Hc; simpl.
    + intros _; left; exists d, p; repeat split; assumption.
    + intros _; right; exact Hev.
Qed.

(** On Linux and Windows a verdict other than ERROR means that no entry of
    the reported dependency list is third party, and ERROR with a non-empty
    list means that one is.  On macOS a verdict other than ERROR means the
    same, or that the list is the single entry let through for its
    [libSystem.B.dylib] path. *)
Theorem pass_means_system_only :
  forall (self : StaticLinkingVerifier) (host : Host),
    (status (fst (_verify_linux self host)) <> ERROR ->
     forallb is_system (dependencies (fst (_verify_linux self host))) = true)
    /\ (status (fst (_verify_windows self host)) <> ERROR ->
        forallb is_system (dependencies (fst (_verify_windows self host))) = true)
    /\ (status (fst (_verify_macos self host)) <> ERROR ->
        forallb is_system (dependencies (fst (_verify_macos self host))) = true
        \/ exists d p, dependencies (fst (_verify_macos self host)) = [d]
                       /\ path d = Some p
                       /\ PyStr.contains "/usr/lib/libSystem.B.dylib" p = true).
Proof.
  intros self host; split; [|split]; intros Hs.
  - destruct (dependencies (fst (_verify_linux self host))) eqn:Hd; [reflexivity|].
    rewrite <- Hd; apply non_system_nil.
    destruct (_verify_linux_with_dependencies self host) as [[H _] | [_ [H _]]];
      [rewrite Hd; discriminate | exact H | contradiction].
  - destruct (dependencies (fst (_verify_windows self host))) eqn:Hd; [reflexivity|].
    rewrite <- Hd; apply non_system_nil.
    destruct (_verify_windows_with_dependencies self host) as [[H _] | [_ [H _]]];
      [rewrite Hd; discriminate | exact H | contradiction].
  - destruct (dependencies (fst (_verify_macos self host))) as [|d0 ds] eqn:Hd; [left; reflexivity|].
    rewrite <- Hd.
    destruct (_verify_macos_with_dependencies self host)
      as [[d [p [H1 [H2 [H3 _]]]]] | [[H _] | [[H _] | [_ H]]]];
      [rewrite Hd; discriminate | | | | contradiction].
    + right; exists d, p; auto.
    + left; now apply non_system_nil.
    + left; now apply non_system_nil.
Qed.

(** The macOS count threshold: a SUCCESS never carries more than three
    dependencies, and a WARNING carries at least four, all of them system
    libraries. *)
Theorem macos_count_threshold :
  forall (self : StaticLinkingVerifier) (host : Host),
    (status (fst (_verify_macos self host)) = SUCCESS ->
     length (dependencies (fst (_verify_macos self host))) <= 3)
    /\ (status (fst (_verify_macos self host)) = WARNING ->
        4 <= length (dependencies (fst (_verify_macos self host)))
        /\ forallb is_system (dependencies (fst (_verify_macos self host))) = true).
Proof.
  intros self host.
  destruct (dependencies (fst (_verify_macos self host))) as [|d0 ds] eqn:Hd.
  - split; [simpl; lia|]. intros Hw; exfalso.
    revert Hd Hw; unfold _verify_macos; simpl.
    destruct (subprocess_run host ["otool"; "-L"; self_binary self]) as [e|result]; simpl.
    + destruct e; simpl; discriminate.
    + unfold macos_body. destruct (negb _); simpl; [discriminate|].
      destruct (_ <=? 1); simpl; [discriminate|].
      destruct (macos_parse _) as [e|deps]; simpl; [destruct e; simpl; discriminate|].
      destruct (length deps =? 1) eqn:Hlen; simpl.
      * destruct deps as [|d [|d' deps]]; try discriminate Hlen; simpl.
        unfold in_path; destruct (path d); simpl; [|discriminate].
        destruct (PyStr.contains _ _); simpl; [discriminate|].
        rewrite macos_evaluate_dependencies; discriminate.
      * rewrite macos_evaluate_dependencies; intros ->.
        unfold macos_evaluate; simpl; discriminate.
  - rewrite <- Hd.
    destruct (_verify_macos_with_dependencies self host)
      as [[d1 [p [H1 [_ [_ Hs]]]]] | [[Hn [Hl Hs]] | [[Hn [Hl Hs]] | [_ Hs]]]];
      try (rewrite Hd; discriminate); rewrite Hs; split; try discriminate; intros _.
    + rewrite H1; simpl; lia.
    + exact Hl.
    + split; [lia | now apply non_system_nil].
Qed.

(** ** The macOS loop, line by line *)

Lemma rstrip_empty (s : string) : PyStr.rstrip s = "" -> PyStr.all_space s = true.
Proof.
  induction s as [|c r IH]; simpl; [reflexivity|].
  destruct (PyStr.isspace c); simpl; [|discriminate].
  destruct (PyStr.rstrip r); simpl; [intros _; now apply IH | discriminate].
Qed.

Lemma all_space_lstrip (s : string) :
  PyStr.all_space (PyStr.lstrip s) = true -> PyStr.all_space s = true.
Proof.
  induction s as [|c r IH]; simpl; [reflexivity|].
  destruct (PyStr.isspace c) eqn:Hc; simpl; [exact IH | now rewrite Hc].
Qed.

(** A line strips to nothing exactly when it is whitespace only. *)
Lemma strip_empty_iff (s : string) :
  PyStr.strip s = "" <-> PyStr.all_space s = true.
Proof.
  split; [|apply strip_all_space].
  unfold PyStr.strip; intros H. apply all_space_lstrip, rstrip_empty, H.
Qed.

Lemma macos_line_token (deps : list Dependency) (line : string) :
  PyStr.all_space line = false ->
  macos_line deps line = ret (deps ++ [macos_dependency line])%list.
Proof.
  intros Hsp. unfold macos_line, macos_dependency, getitem.
  assert (Hne : PyStr.split (PyStr.strip line) <> []).
  { apply split_strip_nonempty.
    destruct (PyStr.strip line) eqn:Hs; [|simpl; lia].
    apply strip_empty_iff in Hs; congruence. }
  destruct (PyStr.split (PyStr.strip line)) as [|t ts]; [congruence | reflexivity].
Qed.

Lemma macos_loop_tokens (lines : list string) (deps : list Dependency) :
  (forall line, In line lines -> PyStr.all_space line = false) ->
  for_each macos_line deps lines = ret (deps ++ map macos_dependency lines)%list.
Proof.
  revert deps; induction lines as [|l lines IH]; intros deps Hall; simpl.
  - now rewrite app_nil_r.
  - rewrite (macos_line_token deps l (Hall l (or_introl eq_refl))); simpl.
    rewrite IH by (intros x Hx; apply Hall; now right).
    now rewrite <- app_assoc.
Qed.

(** The macOS loop records one dependency per line after the first, in
    order, each with the line's first token as path, the token's last
    component as name, and the prefix test as classification; it raises
    [IndexError] exactly when one of those lines is whitespace only. *)
Theorem macos_parse_one_per_line :
  forall (lines : list string),
    ((forall line, In line (tl lines) -> PyStr.all_space line = false) ->
     macos_parse lines = inr (map macos_dependency (tl lines)))
    /\ ((exists line, In line (tl lines) /\ PyStr.all_space line = true) <->
        macos_parse lines = inl (IndexError "list index out of range"))
    /\ (forall deps, macos_parse lines = inr deps ->
          deps = map macos_dependency (tl lines)).
Proof.
  intros lines; unfold macos_parse.
  assert (Hdec : (forall line, In line (tl lines) -> PyStr.all_space line = false)
                 \/ exists line, In line (tl lines) /\ PyStr.all_space line = true).
  { induction (tl lines) as [|l ls IH]; [left; intros ? []|].
    destruct (PyStr.all_space l) eqn:Hl.
    - right; exists l; split; [left; reflexivity | exact Hl].
    - destruct IH as [IH | [x [Hx1 Hx2]]].
      + left; intros x [<- | Hx]; [exact Hl | now apply IH].
      + right; exists x; split; [now right | exact Hx2]. }
  split; [|split].
  - intros Hall; now rewrite macos_loop_tokens.
  - split.
    + intros [line [Hin Hsp]]; exact (macos_loop_blank _ [] line Hin Hsp).
    + intros Hraise. destruct Hdec as [Hall | Hex]; [|exact Hex].
      rewrite macos_loop_tokens in Hraise by exact Hall; discriminate.
  - intros deps Hp. destruct Hdec as [Hall | [line [Hin Hsp]]].
    + rewrite macos_loop_tokens in Hp by exact Hall. now injection Hp as <-.
    + rewrite (macos_loop_blank _ [] line Hin Hsp) in Hp; discriminate.
Qed.

Lemma macos_parse_one_per_line_witness :
  macos_parse (PyStr.splitlines (PyStr.strip otool_two_libraries))
  = inr [mkDependency "libc++.1.dylib" (Some "/usr/lib/libc++.1.dylib") true;
         mkDependency "libSystem.B.dylib" (Some "/usr/lib/libSystem.B.dylib") true].
Proof.
  apply (proj1 (macos_parse_one_per_line
                  (PyStr.splitlines (PyStr.strip otool_two_libraries)))).
  intros line Hin; vm_compute in Hin.
  destruct Hin as [<- | [<- | []]]; reflexivity.
Defined.

(** ** The Linux loop, line by line *)

Lemma linux_line_eq (deps : list Dependency) (line : string) :
  linux_line deps line
  = ret (if PyStr.contains "=>" (PyStr.strip line)
         then (deps ++ [linux_dependency (PyStr.strip line)])%list
         else deps).
Proof.
  unfold linux_line, linux_dependency.
  destruct (PyStr.contains "=>" (PyStr.strip line)) eqn:Hc; [|reflexivity].
  unfold PyStr.split_sep.
  pose proof (split_sep_contains "=>" (PyStr.strip line) [] ltac:(discriminate) Hc) as Hlen.
  destruct (PyStr.split_sep_from "=>" 0 [] (PyStr.strip line)) as [|p0 [|p1 ps]];
    simpl in Hlen; try lia.
  unfold getitem; cbn [nth_error bind ret nth hd].
  destruct (0 <? String.length (PyStr.strip p1)) eqn:Hp; [|reflexivity].
  apply Nat.ltb_lt in Hp. apply split_strip_nonempty in Hp.
  destruct (PyStr.split (PyStr.strip p1)) as [|t ts]; [congruence | reflexivity].
Qed.

Lemma linux_loop_eq (lines : list string) (deps : list Dependency) :
  for_each linux_line deps lines
  = ret (deps ++ map linux_dependency
                   (filter (PyStr.contains "=>") (map PyStr.strip lines)))%list.
Proof.
  revert deps; induction lines as [|l lines IH]; intros deps.
  - simpl; now rewrite app_nil_r.
  - cbn [for_each map filter]; rewrite linux_line_eq.
    unfold ret at 1; cbn [bind].
    destruct (PyStr.contains "=>" (PyStr.strip l)); rewrite IH;
      [cbn [map]; now rewrite <- app_assoc | reflexivity].
Qed.

(** The Linux loop records exactly the stripped lines that contain "=>",
    in order: the number of dependencies is the number of such lines, each
    name is the stripped text before the first "=>", and a line without
    "=>" (the loader line, a vdso line without arrow) is never recorded. *)
Theorem linux_parse_arrow_lines :
  forall (output : string),
    let arrows := filter (PyStr.contains "=>")
                         (map PyStr.strip (PyStr.splitlines output)) in
    exists deps : list Dependency,
      linux_parse output = inr deps
      /\ deps = map linux_dependency arrows
      /\ length deps = length arrows
      /\ map name deps
         = map (fun line => PyStr.strip (hd "" (PyStr.split_sep line "=>"))) arrows.
Proof.
  intros output arrows; exists (map linux_dependency arrows).
  split; [|split; [reflexivity | split]].
  - unfold linux_parse; now rewrite linux_loop_eq.
  - apply length_map.
  - rewrite map_map; reflexivity.
Qed.

(** ** The Linux classification *)

Lemma startswith_app_contains (x y s : string) :
  PyStr.startswith s (x ++ y) = true -> PyStr.contains y s = true.
Proof.
  revert s; induction x as [|a x IH]; intros s; simpl.
  - intros H; destruct s; cbn [PyStr.contains]; now rewrite H.
  - destruct s as [|b s]; [discriminate|].
    intros H; apply andb_prop in H as [_ H].
    apply IH in H. cbn [PyStr.contains]; rewrite H; apply orb_true_r.
Qed.

(** A text that contains [x ++ y] contains [y]. *)
Lemma contains_app_r (x y s : string) :
  PyStr.contains (x ++ y) s = true -> PyStr.contains y s = true.
Proof.
  induction s as [|c r IH]; cbn [PyStr.contains]; intros H.
  - rewrite orb_false_r in H. apply startswith_app_contains in H. exact H.
  - apply orb_prop in H as [H | H].
    + exact (startswith_app_contains x y (String c r) H).
    + rewrite (IH H); apply orb_true_r.
Qed.

Lemma startswith_app_l (x y s : string) :
  PyStr.startswith s (x ++ y) = true -> PyStr.startswith s x = true.
Proof.
  revert s; induction x as [|a x IH]; intros s; simpl; [now destruct s|].
  destruct s as [|b s]; [discriminate|].
  intros H; apply andb_prop in H as [Ha H].
  cbn [PyStr.startswith]; rewrite Ha; exact (IH s H).
Qed.

(** A text that contains [x ++ y] contains [x]. *)
Lemma contains_app_l (x y s : string) :
  PyStr.contains (x ++ y) s = true -> PyStr.contains x s = true.
Proof.
  induction s as [|c r IH]; cbn [PyStr.contains]; intros H.
  - rewrite orb_false_r in H |- *. exact (startswith_app_l x y _ H).
  - apply orb_prop in H as [H | H].
    + now rewrite (startswith_app_l x y _ H).
    + rewrite (IH H); apply orb_true_r.
Qed.

Lemma rev_string_truthy (a : ascii) (acc : list ascii) :
  PyStr.truthy (PyStr.rev_string (a :: acc)) = true.
Proof.
  simpl; destruct (PyStr.rev_string acc); reflexivity.
Qed.

(** The tokens of [split] are never empty. *)
Lemma split_from_truthy (s : string) (acc : list ascii) (t : string) :
  In t (PyStr.split_from acc s) -> PyStr.truthy t = true.
Proof.
  revert acc; induction s as [|c r IH]; intros acc; simpl.
  - destruct acc as [|a acc]; [intros []|].
    intros [<- | []]; apply rev_string_truthy.
  - destruct (PyStr.isspace c); [|apply IH].
    destruct acc as [|a acc]; [apply IH|].
    intros [<- | H]; [apply rev_string_truthy | exact (IH [] H)].
Qed.

(** On Linux a recorded dependency is classified as system exactly when it
    has a path and the path contains "/lib/", "linux-vdso" or "ld-linux":
    the marker "/usr/lib/" adds nothing to "/lib/", and an entry without a
    path (nothing after "=>") is third party. *)
Theorem linux_is_system_iff :
  forall (output : string) (deps : list Dependency) (d : Dependency),
    linux_parse output = inr deps ->
    In d deps ->
    (is_system d = true <->
     exists p, path d = Some p
               /\ (PyStr.contains "/lib/" p = true
                   \/ PyStr.contains "linux-vdso" p = true
                   \/ PyStr.contains "ld-linux" p = true))
    /\ (path d = None -> is_system d = false)
    /\ (forall p, path d = Some p -> PyStr.truthy p = true).
Proof.
  intros output deps d Hp Hin.
  unfold linux_parse in Hp; rewrite linux_loop_eq in Hp; injection Hp as <-.
  apply in_map_iff in Hin as [line [<- _]].
  unfold linux_dependency; cbv zeta.
  set (target := PyStr.strip (nth 1 (PyStr.split_sep line "=>") "")).
  destruct (0 <? String.length target) eqn:Hlen; cbn [path is_system].
  - assert (Ht : PyStr.truthy (hd "" (PyStr.split target)) = true).
    { apply Nat.ltb_lt in Hlen. apply split_strip_nonempty in Hlen. fold target in Hlen.
      destruct (PyStr.split target) as [|t ts] eqn:Hs; [congruence|].
      apply (split_from_truthy target []); unfold PyStr.split in Hs; rewrite Hs.
      left; reflexivity. }
    rewrite Ht; cbn [andb linux_system_markers existsb].
    split; [|split; [discriminate | intros p Hp; now injection Hp as <-]].
    split.
    + intros H; eexists; split; [reflexivity|].
      rewrite orb_false_r in H.
      apply orb_prop in H as [H | H]; [now left|].
      apply orb_prop in H as [H | H]; [left; exact (contains_app_r "/usr" "/lib/" _ H)|].
      apply orb_prop in H as [H | H]; [right; left | right; right]; exact H.
    + intros [p [Hp [H | [H | H]]]]; injection Hp as <-; rewrite H;
        rewrite ?orb_true_r; reflexivity.
  - split; [|split; [reflexivity | discriminate]].
    split; [discriminate | intros [p [Hp _]]; discriminate].
Qed.

Lemma linux_is_system_iff_witness :
  (is_system (mkDependency "libc.so.6" (Some "/lib/x86_64-linux-gnu/libc.so.6") true) = true <->
   exists p, path (mkDependency "libc.so.6" (Some "/lib/x86_64-linux-gnu/libc.so.6") true) = Some p
             /\ (PyStr.contains "/lib/" p = true
                 \/ PyStr.contains "linux-vdso" p = true
                 \/ PyStr.contains "ld-linux" p = true))
  /\ (path (mkDependency "libc.so.6" (Some "/lib/x86_64-linux-gnu/libc.so.6") true) = None ->
      is_system (mkDependency "libc.so.6" (Some "/lib/x86_64-linux-gnu/libc.so.6") true) = false)
  /\ (forall p, path (mkDependency "libc.so.6" (Some "/lib/x86_64-linux-gnu/libc.so.6") true) = Some p ->
                PyStr.truthy p = true).
Proof.
  apply (linux_is_system_iff ldd_mixed
           [mkDependency "libfoo.so.1" (Some "/opt/foo/libfoo.so.1") false;
            mkDependency "libc.so.6" (Some "/lib/x86_64-linux-gnu/libc.so.6") true]).
  - reflexivity.
  - right; left; reflexivity.
Defined.

(** On Linux the fully-static short cut is taken exactly when the text of
    [ldd] (standard output followed by standard error) contains "not a
    dynamic": the longer marker "not a dynamic executable" is subsumed. *)
Theorem linux_static_marker :
  forall (self : StaticLinkingVerifier) (host : Host) (result : CompletedProcess),
    subprocess_run host ["ldd"; self_binary self] = inr result ->
    (message (fst (_verify_linux self host))
     = "Fully static binary (no dynamic dependencies)"
     <-> PyStr.contains "not a dynamic" (stdout result ++ stderr result) = true).
Proof.
  intros self host result Hrun.
  unfold _verify_linux; simpl; rewrite Hrun; simpl. unfold linux_body.
  destruct (PyStr.contains "not a dynamic" (stdout result ++ stderr result)) eqn:Hshort.
  - rewrite orb_true_r; simpl; split; reflexivity.
  - destruct (PyStr.contains "not a dynamic executable" (stdout result ++ stderr result))
      eqn:Hlong.
    + apply (contains_app_l "not a dynamic" " executable") in Hlong; congruence.
    + simpl. split; [|discriminate].
      destruct (linux_parse _) as [e|deps]; simpl; [destruct e; discriminate|].
      destruct deps as [|d deps]; [discriminate|].
      destruct (non_system (d :: deps)); simpl; [|discriminate].
      destruct (self_strict self); discriminate.
Qed.

Lemma linux_static_marker_witness :
  message (fst (_verify_linux (mkVerifier "build/app" false "Linux")
                  (host_printing ldd_static)))
  = "Fully static binary (no dynamic dependencies)"
  <-> PyStr.contains "not a dynamic" (ldd_static ++ "") = true.
Proof.
  apply (linux_static_marker (mkVerifier "build/app" false "Linux")
           (host_printing ldd_static) (mkCompleted 0 ldd_static "")).
  reflexivity.
Defined.

(** ** The report *)

Lemma print_bucket_In (title : string) (verbose : bool) (deps : list Dependency)
      (d : Dependency) :
  In d deps -> In (print_dep verbose d) (print_bucket title verbose deps).
Proof.
  intros Hin; unfold print_bucket.
  destruct deps as [|x deps]; [destruct Hin|].
  right; now apply in_map.
Qed.

Lemma bucket_sizes (deps : list Dependency) :
  length (filter is_system deps) + length (non_system deps) = length deps.
Proof.
  unfold non_system; induction deps as [|d deps IH]; simpl; [reflexivity|].
  destruct (is_system d); simpl; lia.
Qed.

Lemma print_bucket_split (title : string) (verbose : bool)
      (deps l1 l2 : list Dependency) (d : Dependency) :
  deps = (l1 ++ d :: l2)%list ->
  print_bucket title verbose deps
  = (nl ++ "  " ++ title ++ " (" ++ PyStr.of_nat (length deps) ++ "):")
    :: List.app (map (print_dep verbose) l1)
         (print_dep verbose d :: map (print_dep verbose) l2).
Proof.
  intros ->. unfold print_bucket.
  destruct (l1 ++ d :: l2)%list as [|x xs] eqn:E;
    [now destruct l1 |].
  rewrite <- E, map_app; reflexivity.
Qed.

(** Where the two buckets stand in the report. *)
Lemma print_result_shape (result : VerificationResult) (verbose : bool) :
  dependencies result <> [] ->
  exists before after,
    fst (print_result result verbose)
    = (before
       ++ print_bucket "System libraries" verbose (filter is_system (dependencies result))
       ++ print_bucket "Third-party libraries" verbose (non_system (dependencies result))
       ++ after)%list.
Proof.
  intros Hne. unfold print_result; cbv zeta; cbn [fst].
  destruct (dependencies result) as [|x xs] eqn:Hd; [congruence|]. rewrite <- Hd.
  match goal with
  | |- exists _ _, (?head ++ ?det ++ (?hdr :: ?bs ++ ?bn) ++ ?foot)%list = _ =>
      exists (head ++ det ++ [hdr])%list, foot
  end.
  rewrite <- !app_assoc. cbn [app]. rewrite <- !app_assoc. reflexivity.
Qed.

(** The report shows every dependency of the result under the heading of
    its classification: the heading "System libraries (n):" or
    "Third-party libraries (n):", with n the size of that class, is followed
    by entries of dependencies of the same class only, up to the entry of
    the dependency itself.  Without [--verbose] the entry is the name alone,
    and the sizes of the two classes add up to the total. *)
Theorem print_result_lists_every_dependency :
  forall (result : VerificationResult) (verbose : bool) (d : Dependency),
    In d (dependencies result) ->
    In (print_dep verbose d) (fst (print_result result verbose))
    /\ In ("    • " ++ name d) (fst (print_result result false))
    /\ (exists before between after,
          fst (print_result result verbose)
          = List.app before
              ((nl ++ "  "
                ++ (if is_system d then "System libraries" else "Third-party libraries")
                ++ " ("
                ++ PyStr.of_nat
                     (length (if is_system d
                              then filter is_system (dependencies result)
                              else non_system (dependencies result)))
                ++ "):")
               :: List.app between (print_dep verbose d :: after))
          /\ forall t, In t between ->
               exists d', In d' (dependencies result)
                          /\ is_system d' = is_system d
                          /\ t = print_dep verbose d')
    /\ length (filter is_system (dependencies result))
       + length (non_system (dependencies result))
       = length (dependencies result).
Proof.
  intros result verbose d Hin.
  assert (Hshown : forall v, In (print_dep v d) (fst (print_result result v))).
  { intros v; unfold print_result; simpl.
    destruct (dependencies result) as [|x deps] eqn:Hd; [destruct Hin|].
    rewrite <- Hd in *.
    do 5 right. apply in_or_app; right. apply in_or_app; left. right.
    apply in_or_app.
    destruct (is_system d) eqn:Hs.
    - left; apply print_bucket_In, filter_In; split; assumption.
    - right; apply print_bucket_In, filter_In; split; [assumption | now rewrite Hs]. }
  split; [apply Hshown|]. split; [apply (Hshown false)|]. split; [|apply bucket_sizes].
  assert (Hne : dependencies result <> []) by (intros E; rewrite E in Hin; destruct Hin).
  destruct (print_result_shape result verbose Hne) as [before [after Hshape]].
  rewrite Hshape; clear Hshape.
  destruct (is_system d) eqn:Hs.
  - assert (Hb : In d (filter is_system (dependencies result)))
      by (apply filter_In; split; assumption).
    apply in_split in Hb as [l1 [l2 Hb]].
    rewrite (print_bucket_split "System libraries" verbose _ l1 l2 d Hb).
    exists before, (map (print_dep verbose) l1),
      (map (print_dep verbose) l2
       ++ print_bucket "Third-party libraries" verbose (non_system (dependencies result))
       ++ after)%list.
    split.
    + cbn [app]. rewrite <- !app_assoc. reflexivity.
    + intros t Ht. apply in_map_iff in Ht as [d' [<- Hd']].
      assert (Hd'' : In d' (filter is_system (dependencies result)))
        by (rewrite Hb; apply in_or_app; now left).
      apply filter_In in Hd'' as [H1 H2]. exists d'; repeat split; assumption.
  - assert (Hb : In d (non_system (dependencies result)))
      by (apply filter_In; split; [assumption | now rewrite Hs]).
    apply in_split in Hb as [l1 [l2 Hb]].
    rewrite (print_bucket_split "Third-party libraries" verbose _ l1 l2 d Hb).
    exists (before
            ++ print_bucket "System libraries" verbose
                 (filter is_system (dependencies result)))%list,
      (map (print_dep verbose) l1), (map (print_dep verbose) l2 ++ after)%list.
    split.
    + cbn [app]. rewrite <- !app_assoc. reflexivity.
    + intros t Ht. apply in_map_iff in Ht as [d' [<- Hd']].
      assert (Hd'' : In d' (non_system (dependencies result)))
        by (rewrite Hb; apply in_or_app; now left).
      apply filter_In in Hd'' as [H1 H2]. apply negb_true_iff in H2.
      exists d'; repeat split; assumption.
Qed.

Lemma print_result_lists_every_dependency_witness :
  In ("    • KERNEL32.dll")
     (fst (print_result
             (fst (_verify_windows (mkVerifier "app.exe" false "Windows")
                     (host_printing dumpbin_dll_after_summary))) false))
  /\ exists before between after,
       fst (print_result
              (fst (_verify_windows (mkVerifier "app.exe" false "Windows")
                      (host_printing dumpbin_dll_after_summary))) false)
       = List.app before
           ((nl ++ "  System libraries (1):")
            :: List.app between ("    • KERNEL32.dll" :: after)).
Proof.
  destruct (print_result_lists_every_dependency
              (fst (_verify_windows (mkVerifier "app.exe" false "Windows")
                      (host_printing dumpbin_dll_after_summary)))
              false (mkDependency "KERNEL32.dll" None true)
              ltac:(left; reflexivity))
    as [_ [H1 [[before [between [after [H2 _]]]] _]]].
  split; [exact H1|]. exists before, between, after. exact H2.
Defined.

Lemma print_result_verbose_without_paths (result : VerificationResult) :
  (forall d, In d (dependencies result) -> path d = None \/ path d = Some "") ->
  print_result result true = print_result result false.
Proof.
  intros Hnone.
  assert (Hdep : forall deps,
             (forall d, In d deps -> In d (dependencies result)) ->
             print_bucket "System libraries" true (filter is_system deps)
             = print_bucket "System libraries" false (filter is_system deps)
             /\ print_bucket "Third-party libraries" true (non_system deps)
                = print_bucket "Third-party libraries" false (non_system deps)).
  { intros deps Hsub.
    assert (Hmap : forall l, (forall d, In d l -> In d deps) ->
                             map (print_dep true) l = map (print_dep false) l).
    { intros l Hl; apply map_ext_in; intros d Hd.
      unfold print_dep.
      destruct (Hnone d (Hsub d (Hl d Hd))) as [-> | ->]; reflexivity. }
    unfold print_bucket, non_system; split.
    - destruct (filter is_system deps) as [|x xs] eqn:Hf; [reflexivity|].
      rewrite <- Hf; f_equal; apply Hmap; intros d Hd; now apply filter_In in Hd.
    - destruct (filter _ deps) as [|x xs] eqn:Hf; [reflexivity|].
      rewrite <- Hf; f_equal; apply Hmap; intros d Hd; now apply filter_In in Hd. }
  unfold print_result; cbv zeta.
  destruct (Hdep (dependencies result) (fun d H => H)) as [Hs Hn].
  destruct (dependencies result) as [|x deps] eqn:Hd; [reflexivity|].
  rewrite <- Hd in *. rewrite Hs, Hn. reflexivity.
Qed.

(** On Windows [--verbose] changes nothing: the dependencies recorded from
    [dumpbin] carry no path, so report and exit status are the same with and
    without it. *)
Theorem windows_report_ignores_verbose :
  forall (self : StaticLinkingVerifier) (host : Host),
    (forall d, In d (dependencies (fst (_verify_windows self host))) -> path d = None)
    /\ print_result (fst (_verify_windows self host)) true
       = print_result (fst (_verify_windows self host)) false.
Proof.
  intros self host.
  assert (Hnone : forall d, In d (dependencies (fst (_verify_windows self host))) ->
                            path d = None).
  { unfold _verify_windows; simpl.
    destruct (subprocess_run host _) as [e|result]; simpl; [destruct e; intros ? []|].
    unfold windows_body. destruct (negb _); simpl; [intros ? []|].
    rewrite windows_parse_eq; simpl.
    set (ls := filter recordable _).
    assert (Hd : dependencies (windows_evaluate self (map windows_dependency ls))
                 = map windows_dependency ls).
    { unfold windows_evaluate. destruct (map windows_dependency ls) eqn:Hm; [reflexivity|].
      destruct (non_system _); reflexivity. }
    rewrite Hd; intros d Hin. apply in_map_iff in Hin as [l [<- _]]; reflexivity. }
  split; [exact Hnone|].
  apply print_result_verbose_without_paths; intros d Hd; left; now apply Hnone.
Qed.

(** * The build helper's verification sweep *)





(** * Output the parsers do not recognise *)

Lemma filter_none {A} (f : A -> bool) (l : list A) :
  (forall x, In x l -> f x = false) -> filter f l = [].
Proof.
  induction l as [|x l IH]; intros H; simpl; [reflexivity|].
  rewrite (H x (or_introl eq_refl)); apply IH; intros y Hy; apply H; now right.
Qed.

Lemma after_marker_none (lines : list string) :
  (forall l, In l lines -> has_marker l = false) -> after_marker lines = [].
Proof.
  induction lines as [|x lines IH]; intros H; simpl; [reflexivity|].
  rewrite (H x (or_introl eq_refl)); apply IH; intros y Hy; apply H; now right.
Qed.

(** Text the parsers find nothing in counts as a fully static binary.  On
    Linux, whatever [ldd] exits with, an output none of whose lines contains
    "=>" gives SUCCESS without dependencies; on Windows an output of a
    successful [dumpbin] none of whose lines contains the dependencies marker
    gives SUCCESS without dependencies. *)
Theorem unrecognised_output_passes :
  forall (self : StaticLinkingVerifier) (host : Host) (result : CompletedProcess),
    (subprocess_run host ["ldd"; self_binary self] = inr result ->
     (forall line, In line (PyStr.splitlines (stdout result ++ stderr result)) ->
                   PyStr.contains "=>" (PyStr.strip line) = false) ->
     status (fst (_verify_linux self host)) = SUCCESS
     /\ dependencies (fst (_verify_linux self host)) = [])
    /\ (subprocess_run host ["dumpbin"; "/dependents"; self_binary self] = inr result ->
        returncode result = 0%Z ->
        (forall line, In line (PyStr.splitlines (stdout result)) ->
                      PyStr.contains deps_marker (PyStr.strip line) = false) ->
        fst (_verify_windows self host)
        = mkResult SUCCESS "Windows" (self_binary self) []
            "Fully static binary (no DLL dependencies)"
            ["Binary is completely static"]).
Proof.
  intros self host result; split.
  - intros Hrun Hno. apply (linux_no_dependencies self host result Hrun).
    unfold linux_parse; rewrite linux_loop_eq.
    rewrite filter_none; [reflexivity|].
    intros x Hx; apply in_map_iff in Hx as [l [<- Hl]]; now apply Hno.
  - intros Hrun Hrc Hno. unfold _verify_windows; simpl; rewrite Hrun; simpl.
    unfold windows_body; rewrite Hrc; simpl. rewrite windows_parse_eq; simpl.
    rewrite after_marker_none; [reflexivity|].
    intros x Hx; apply in_map_iff in Hx as [l [<- Hl]]; now apply Hno.
Qed.

Lemma unrecognised_output_passes_witness :
  status (fst (_verify_linux (mkVerifier "build/app" true "Linux")
                 (host_exiting 1 "ldd: build/app: No such file or directory"))) = SUCCESS
  /\ dependencies (fst (_verify_linux (mkVerifier "build/app" true "Linux")
                          (host_exiting 1 "ldd: build/app: No such file or directory"))) = [].
Proof.
  apply (proj1 (unrecognised_output_passes (mkVerifier "build/app" true "Linux")
                  (host_exiting 1 "ldd: build/app: No such file or directory")
                  (mkCompleted 1 "ldd: build/app: No such file or directory" ""))).
  - reflexivity.
  - intros line Hin; vm_compute in Hin. destruct Hin as [<- | []]; reflexivity.
Defined.

(** * The general machine *)

(** C10 as worded fails in two ways.  A whitespace-only line that stands
    last (or first) in what [otool] printed is a line after the first of the
    output, yet [strip] removes it before the loop and the result is SUCCESS;
    and when [otool] exits with a non-zero status no line is parsed at all
    and the message begins "otool failed". *)
Lemma macos_edge_blank_line_passes :
  (In "   " (tl (PyStr.splitlines otool_trailing_blank))
   /\ PyStr.all_space "   " = true
   /\ status (fst (_verify_macos (mkVerifier "build/app" false "Darwin")
                     (host_printing otool_trailing_blank))) = SUCCESS)
  /\ (exists line, In line (tl (PyStr.splitlines otool_blank_line))
                   /\ PyStr.all_space line = true)
  /\ message (fst (_verify_macos (mkVerifier "build/app" false "Darwin")
                     (host_exiting 1 otool_blank_line)))
     = "otool failed: ".
Proof.
  split; [|split].
  - split; [vm_compute; right; left; reflexivity | split; reflexivity].
  - exists " "; split; [vm_compute; right; left; reflexivity | reflexivity].
  - reflexivity.
Qed.

(** ** [verify] with [stat] calls that can raise *)

(** Where both [stat] calls answer, [verify_os] is [verify] on the host of
    those answers. *)
Lemma verify_os_answers (self : StaticLinkingVerifier) (m : OsHost) (x y : bool) :
  os_exists m (self_binary self) = ret x ->
  (x = true -> os_is_file m (self_binary self) = ret y) ->
  verify_os self m
  = (ret (fst (verify self (mkHost (fun _ => x) (fun _ => y) (os_run m)))),
     snd (verify self (mkHost (fun _ => x) (fun _ => y) (os_run m)))).
Proof.
  intros Hx Hy; unfold verify_os, verify; rewrite Hx; simpl.
  destruct x; simpl; [|reflexivity].
  rewrite (Hy eq_refl); simpl.
  destruct y; simpl; [|reflexivity].
  destruct (String.eqb (self_platform self) "Linux"); [reflexivity|].
  destruct (String.eqb (self_platform self) "Darwin"); [reflexivity|].
  destruct (String.eqb (self_platform self) "Windows"); reflexivity.
Qed.

(** C8 at the failing input.  A path whose name has 300 characters does not
    exist, and [Path.exists()] does not answer [False] for it: the [stat]
    call fails with errno 36 and the [OSError] leaves [verify], which
    returns no result at all.  No command is started, and the process ends
    with status 1. *)
Theorem verify_os_overlong_name_raises :
  os_exists (os_with_files [] (fun _ => raise (FileNotFoundError "ldd"))) overlong_name
  = raise (OtherException "[Errno 36] File name too long")
  /\ verify_os (mkVerifier overlong_name false "Linux")
       (os_with_files [] (fun _ => raise (FileNotFoundError "ldd")))
     = (raise (OtherException "[Errno 36] File name too long"), [])
  /\ run_exit (main_os (mkArgs overlong_name false false) "Linux"
                 (os_with_files [] (fun _ => raise (FileNotFoundError "ldd")))) = 1%Z.
Proof. repeat split; vm_compute; reflexivity. Qed.

(** [verify_os] starts a command only when both [stat] calls answer [True]
    and the platform is one of the three, and then exactly one: the
    platform's tool with the binary as last argument, and it returns a
    result.  When a [stat] call raises, the exception leaves [verify_os] and
    nothing is started.  When the path is absent, is no regular file, or the
    platform is unknown, nothing is started and the result is an ERROR
    without dependencies that says which. *)
Theorem verify_os_starts_at_most_one_command :
  forall (self : StaticLinkingVerifier) (m : OsHost),
    let b := self_binary self in
    let p := self_platform self in
    let supported := String.eqb p "Linux" || String.eqb p "Darwin" || String.eqb p "Windows" in
    (forall e, os_exists m b = inl e -> verify_os self m = (inl e, []))
    /\ (forall e, os_exists m b = inr true -> os_is_file m b = inl e ->
                  verify_os self m = (inl e, []))
    /\ (os_exists m b = inr false ->
        verify_os self m
        = (inr (mkResult ERROR p b [] ("Binary not found: " ++ b) []), []))
    /\ (os_exists m b = inr true -> os_is_file m b = inr false ->
        verify_os self m
        = (inr (mkResult ERROR p b [] ("Not a file: " ++ b) []), []))
    /\ (os_exists m b = inr true -> os_is_file m b = inr true -> supported = false ->
        verify_os self m
        = (inr (mkResult ERROR p b [] ("Unsupported platform: " ++ p) []), []))
    /\ (os_exists m b = inr true -> os_is_file m b = inr true -> supported = true ->
        (exists r, fst (verify_os self m) = inr r)
        /\ snd (verify_os self m)
           = [if String.eqb p "Linux" then ["ldd"; b]
              else if String.eqb p "Darwin" then ["otool"; "-L"; b]
              else ["dumpbin"; "/dependents"; b]]).
Proof.
  intros self m b p supported; subst b p supported; unfold verify_os.
  repeat split.
  - intros e ->; reflexivity.
  - intros e -> ->; reflexivity.
  - intros ->; reflexivity.
  - intros -> ->; reflexivity.
  - intros -> ->.
    destruct (String.eqb (self_platform self) "Linux"); [discriminate|].
    destruct (String.eqb (self_platform self) "Darwin"); [discriminate|].
    destruct (String.eqb (self_platform self) "Windows"); [discriminate | reflexivity].
  - revert H H0 H1; intros -> -> Hs.
    destruct (String.eqb (self_platform self) "Linux"); [eexists; reflexivity|].
    destruct (String.eqb (self_platform self) "Darwin"); [eexists; reflexivity|].
    destruct (String.eqb (self_platform self) "Windows");
      [eexists; reflexivity | discriminate].
  - revert H H0 H1; intros -> -> Hs.
    destruct (String.eqb (self_platform self) "Linux"); [reflexivity|].
    destruct (String.eqb (self_platform self) "Darwin"); [reflexivity|].
    destruct (String.eqb (self_platform self) "Windows"); [reflexivity | discriminate].
Qed.

Lemma verify_os_starts_at_most_one_command_witness :
  verify_os (mkVerifier "build/missing" false "Linux")
    (os_with_files [] (fun _ => raise (FileNotFoundError "ldd")))
  = (inr (mkResult ERROR "Linux" "build/missing" [] "Binary not found: build/missing" []), [])
  /\ snd (verify_os (mkVerifier "build/app" false "Linux")
            (os_with_files ["build/app"] (fun _ => ret (mkCompleted 0 ldd_libc_only ""))))
     = [["ldd"; "build/app"]].
Proof.
  split.
  - apply (proj1 (proj2 (proj2 (verify_os_starts_at_most_one_command
                                  (mkVerifier "build/missing" false "Linux")
                                  (os_with_files [] (fun _ => raise (FileNotFoundError "ldd"))))))).
    reflexivity.
  - apply (proj2 (proj2 (proj2 (proj2 (proj2 (verify_os_starts_at_most_one_command
             (mkVerifier "build/app" false "Linux")
             (os_with_files ["build/app"]
                (fun _ => ret (mkCompleted 0 ldd_libc_only ""))))))))); reflexivity.
Defined.

(** ** [main] with prints that can raise *)

Lemma print_all_snd (encodes : string -> bool) (texts : list string) :
  snd (print_all encodes texts)
  = if forallb encodes texts then ret tt
    else raise (OtherException "UnicodeEncodeError").
Proof.
  induction texts as [|t texts IH]; simpl; [reflexivity|].
  destruct (encodes t); simpl; [exact IH | reflexivity].
Qed.

Lemma print_all_fst (encodes : string -> bool) (texts : list string) :
  forallb encodes texts = true -> fst (print_all encodes texts) = texts.
Proof.
  induction texts as [|t texts IH]; simpl; [reflexivity|].
  destruct (encodes t); simpl; [intros H; now rewrite IH | discriminate].
Qed.



(** Where the [stat] calls answer and the output takes every text,
    [main_os] is [main]. *)
Lemma main_os_answers (args : Namespace) (system : string) (m : OsHost) (x y : bool) :
  (forall t, os_encodes m t = true) ->
  os_exists m (args_binary args) = ret x ->
  (x = true -> os_is_file m (args_binary args) = ret y) ->
  main_os args system m
  = main args system (mkHost (fun _ => x) (fun _ => y) (os_run m)).
Proof.
  intros Henc Hx Hy. unfold main_os, main; cbv zeta.
  rewrite (verify_os_answers (mkVerifier (args_binary args) (args_strict args) system)
             m x y Hx Hy); cbn [fst snd].
  destruct (verify _ _) as [r started]; cbn [fst snd].
  unfold print_result_os, ret at 1; cbn [fst snd].
  assert (Hall : forallb (os_encodes m) (fst (print_result r (args_verbose args))) = true)
    by (apply forallb_forall; intros t _; apply Henc).
  rewrite print_all_snd, (print_all_fst _ _ Hall), Hall.
  unfold bind, ret.
  destruct (print_result r (args_verbose args)); reflexivity.
Qed.

(** On a standard output that can encode every text of the report (a UTF-8
    terminal), the exit status of the verifier and the commands it starts do
    not depend on [--strict] or [--verbose], whatever the [stat] calls do:
    strictness only turns SUCCESS into WARNING, and both end with 0. *)
Theorem main_os_exit_ignores_strict :
  forall (b system : string) (s1 v1 s2 v2 : bool) (m : OsHost),
    (forall t, os_encodes m t = true) ->
    run_exit (main_os (mkArgs b s1 v1) system m)
    = run_exit (main_os (mkArgs b s2 v2) system m)
    /\ run_started (main_os (mkArgs b s1 v1) system m)
       = run_started (main_os (mkArgs b s2 v2) system m).
Proof.
  intros b system s1 v1 s2 v2 m Henc.
  destruct (os_exists m b) as [e|x] eqn:Hx.
  - unfold main_os, verify_os; simpl; rewrite Hx; simpl; split; reflexivity.
  - destruct x.
    + destruct (os_is_file m b) as [e|y] eqn:Hy.
      * unfold main_os, verify_os; simpl; rewrite Hx, Hy; simpl; split; reflexivity.
      * rewrite (main_os_answers (mkArgs b s1 v1) system m true y Henc Hx (fun _ => Hy)).
        rewrite (main_os_answers (mkArgs b s2 v2) system m true y Henc Hx (fun _ => Hy)).
        apply main_exit_ignores_strict.
    + rewrite (main_os_answers (mkArgs b s1 v1) system m false false Henc Hx
                 ltac:(discriminate)).
      rewrite (main_os_answers (mkArgs b s2 v2) system m false false Henc Hx
                 ltac:(discriminate)).
      apply main_exit_ignores_strict.
Qed.

Lemma main_os_exit_ignores_strict_witness :
  run_exit (main_os (mkArgs "build/app" true false) "Linux"
              (os_with_files ["build/app"] (fun _ => ret (mkCompleted 0 ldd_libc_only ""))))
  = run_exit (main_os (mkArgs "build/app" false true) "Linux"
                (os_with_files ["build/app"] (fun _ => ret (mkCompleted 0 ldd_libc_only ""))))
  /\ run_started (main_os (mkArgs "build/app" true false) "Linux"
                    (os_with_files ["build/app"]
                       (fun _ => ret (mkCompleted 0 ldd_libc_only ""))))
     = run_started (main_os (mkArgs "build/app" false true) "Linux"
                      (os_with_files ["build/app"]
                         (fun _ => ret (mkCompleted 0 ldd_libc_only "")))).
Proof.
  apply (main_os_exit_ignores_strict "build/app" "Linux" true false false true
           (os_with_files ["build/app"] (fun _ => ret (mkCompleted 0 ldd_libc_only "")))).
  intros t; reflexivity.
Defined.

(** The condition on the output is needed: on a terminal that cannot encode
    the warning sign, [--strict] turns the exit status 0 of a binary with
    system libraries only into 1. *)
Example strict_fails_without_warning_sign :
  run_exit (main_os (mkArgs "build/app" false false) "Linux"
              (os_without_warning_sign ["build/app"]
                 (fun _ => ret (mkCompleted 0 ldd_libc_only "")))) = 0%Z
  /\ run_exit (main_os (mkArgs "build/app" true false) "Linux"
                 (os_without_warning_sign ["build/app"]
                    (fun _ => ret (mkCompleted 0 ldd_libc_only "")))) = 1%Z.
Proof. split; vm_compute; reflexivity. Qed.

(** ** The sweep joined with the verifier it starts *)


